(** * Arrivals aggregation core of amsterdam-flight-vibe

    A shallow embedding of the two Netlify functions of the repository:
    the Schiphol arrivals proxy (airport metadata resolver, page fetcher,
    response cache, paginate loop, handler) and the multi-status
    aviationstack proxy of [netlify/functions/arrivals-cdg.js], a file
    that is rejected when it is loaded.

    JavaScript values are embedded as follows.
    - A JS string is a [string]; its characters stand for UTF-16 code
      units below 256, and case conversion is that of ASCII.  Strings
      that leave that range (the flag emoji) are lists of code points.
    - [undefined] and [null] are [None]; NaN is [None] of [option Z].
    - Integers (counters, epoch milliseconds) are [Z].
    - A [Map] keyed by strings is a [gmap string _]; the response
      cache of the Schiphol function, which is iterated, is an
      association list in insertion order, and so is the [Set] of
      codes that is spread into an array.
    - Code that can throw returns a [completion]; process-wide state is
      threaded explicitly through a state monad; the network and the
      clock are oracles indexed by a tick counter that every effectful
      call advances. *)

From Stdlib Require Import ZArith Ascii String List Lia Bool Permutation DecimalString.
From stdpp Require Import base option list strings gmap.

Open Scope string_scope.
Open Scope Z_scope.

(** ** JavaScript primitives *)

Module JS.

Inductive exn : Type :=
| TypeError (msg : string)
| RangeError (msg : string).

Definition message (e : exn) : string :=
  match e with TypeError m => m | RangeError m => m end.

(** Result of evaluating code that may throw. *)
Inductive completion (A : Type) : Type :=
| Normal (a : A)
| Throw (e : exn).
Arguments Normal {A} a.
Arguments Throw {A} e.

Definition cbind {A B} (c : completion A) (k : A -> completion B) : completion B :=
  match c with Normal a => k a | Throw e => Throw e end.

(** Truthiness of a possibly absent string: [undefined], [null] and the
    empty string are falsy. *)
Definition truthy (o : option string) : bool :=
  match o with
  | Some (String _ _) => true
  | _ => false
  end.

(** [a || b] on possibly absent strings. *)
Definition or_else (a b : option string) : option string :=
  if truthy a then a else b.

(** [a || ''] *)
Definition or_empty (a : option string) : string :=
  match a with
  | Some (String c r) => String c r
  | _ => ""
  end.

Definition code_of (c : ascii) : Z := Z.of_nat (nat_of_ascii c).

(** [s.charCodeAt(i)]; NaN past the end. *)
Definition charCodeAt (s : string) (i : nat) : option Z :=
  match String.get i s with
  | Some c => Some (code_of c)
  | None => None
  end.

(** [String.fromCodePoint(x)]: a RangeError unless [x] is an integer in
    [0 .. 0x10FFFF]; the result is the one-code-point string. *)
Definition fromCodePoint (x : option Z) : completion (list Z) :=
  match x with
  | Some n =>
      if (0 <=? n) && (n <=? 1114111) then Normal [n]
      else Throw (RangeError "Invalid code point")
  | None => Throw (RangeError "Invalid code point NaN")
  end.

Definition upper_char (c : ascii) : ascii :=
  let n := nat_of_ascii c in
  if (97 <=? n)%nat && (n <=? 122)%nat then ascii_of_nat (n - 32) else c.

(** [s.toUpperCase()] on ASCII text (other characters are left as they
    are). *)
Fixpoint toUpperCase (s : string) : string :=
  match s with
  | EmptyString => EmptyString
  | String c r => String (upper_char c) (toUpperCase r)
  end.

(** [s.split(sep)] for a one-character separator: never empty. *)
Fixpoint split (sep : ascii) (s : string) : list string :=
  match s with
  | EmptyString => [EmptyString]
  | String c r =>
      if Ascii.eqb c sep then EmptyString :: split sep r
      else match split sep r with
           | h :: t => String c h :: t
           | [] => [String c EmptyString]
           end
  end.

(** [s.replace(/c/g, '')] *)
Fixpoint remove_char (c : ascii) (s : string) : string :=
  match s with
  | EmptyString => EmptyString
  | String a r =>
      if Ascii.eqb a c then remove_char c r else String a (remove_char c r)
  end.

(** [s.startsWith(p)] *)
Definition startsWith (p s : string) : bool := String.prefix p s.

(** [s.indexOf(p)], [None] standing for -1. *)
Fixpoint indexOf (p s : string) : option nat :=
  if String.prefix p s then Some 0%nat
  else match s with
       | EmptyString => None
       | String _ r => S <$> indexOf p r
       end.

Definition includes (p s : string) : bool := bool_decide (is_Some (indexOf p s)).

(** [s.substring(a, b)]: the arguments are swapped when [a > b]. *)
Definition substring (a b : nat) (s : string) : string :=
  String.substring (Nat.min a b) (Nat.max a b - Nat.min a b) s.

(** [s.slice(a, b)] for [0 <= a <= b]. *)
Definition slice (a b : nat) (s : string) : string :=
  String.substring a (b - a) s.

Definition drop_prefix (n : nat) (s : string) : string :=
  String.substring n (String.length s - n) s.

(** [s.replace(p, q)] with a string pattern: the first occurrence. *)
Definition replace_first (p q s : string) : string :=
  match indexOf p s with
  | Some i => String.substring 0 i s ++ q ++ drop_prefix (i + String.length p) s
  | None => s
  end.

Definition is_space (c : ascii) : bool :=
  let n := nat_of_ascii c in
  (n =? 32)%nat || ((9 <=? n)%nat && (n <=? 13)%nat) || (n =? 160)%nat.

Fixpoint trim_start (s : string) : string :=
  match s with
  | String c r => if is_space c then trim_start r else s
  | EmptyString => EmptyString
  end.

Fixpoint rev_string (acc s : string) : string :=
  match s with
  | EmptyString => acc
  | String c r => rev_string (String c acc) r
  end.

(** [s.trim()] *)
Definition trim (s : string) : string :=
  rev_string "" (trim_start (rev_string "" (trim_start s))).

Definition quoted (s : string) : string := String "034" s ++ String "034" "".

Fixpoint insert_by {A} (cmp : A -> A -> Z) (x : A) (l : list A) : list A :=
  match l with
  | [] => [x]
  | y :: r => if 0 <? cmp y x then x :: y :: r else y :: insert_by cmp x r
  end.

(** [Array.prototype.sort] with comparator [cmp], as a stable
    insertion sort: an element goes before the first one the
    comparator puts after it. *)
Definition sort_by {A} (cmp : A -> A -> Z) (l : list A) : list A :=
  fold_left (fun acc x => insert_by cmp x acc) l [].

Definition digit_val (radix : nat) (c : ascii) : option Z :=
  let n := nat_of_ascii c in
  let v := if (48 <=? n)%nat && (n <=? 57)%nat then Some (n - 48)%nat
           else if (97 <=? n)%nat && (n <=? 122)%nat then Some (n - 87)%nat
           else if (65 <=? n)%nat && (n <=? 90)%nat then Some (n - 55)%nat
           else None in
  match v with
  | Some d => if (d <? radix)%nat then Some (Z.of_nat d) else None
  | None => None
  end.

Fixpoint digits_prefix (radix : nat) (acc : option Z) (s : string) : option Z :=
  match s with
  | String c r =>
      match digit_val radix c with
      | Some d => digits_prefix radix (Some (Z.of_nat radix * default 0 acc + d)) r
      | None => acc
      end
  | EmptyString => acc
  end.

Definition unsigned_prefix (s : string) : option Z :=
  match s with
  | String "0" (String x r) =>
      if Ascii.eqb x "x" || Ascii.eqb x "X" then digits_prefix 16 None r
      else digits_prefix 10 None s
  | _ => digits_prefix 10 None s
  end.

(** [parseInt(s)] with no radix argument; NaN is [None]. *)
Definition parseInt (o : option string) : option Z :=
  match o with
  | None => None
  | Some s =>
      match trim_start s with
      | String "-" r => Z.opp <$> unsigned_prefix r
      | String "+" r => unsigned_prefix r
      | t => unsigned_prefix t
      end
  end.

End JS.

Import JS.

(** ** JSON values, [JSON.stringify] and a reader for JSON text *)

Module Json.

#[local] Set Warnings "-register-all".
Inductive json : Type :=
| JNull
| JBool (b : bool)
| JNum (n : Z)
| JStr (s : string)
| JArr (items : list json)
| JObj (fields : list (string * json)).

(** Property lookup among the properties of an object. *)
Fixpoint assoc (k : string) (fields : list (string * json)) : option json :=
  match fields with
  | [] => None
  | (k', v) :: r => if String.eqb k k' then Some v else assoc k r
  end.

Definition hex_digit (n : nat) : ascii :=
  nth n (list_ascii_of_string "0123456789abcdef") "0"%char.

(** One character inside a quoted JSON string. *)
Definition escape_char (c : ascii) : string :=
  let n := nat_of_ascii c in
  if (n =? 34)%nat then String "\" (String c "")
  else if (n =? 92)%nat then "\\"
  else if (n =? 8)%nat then "\b"
  else if (n =? 9)%nat then "\t"
  else if (n =? 10)%nat then "\n"
  else if (n =? 12)%nat then "\f"
  else if (n =? 13)%nat then "\r"
  else if (n <? 32)%nat then
    "\u00" ++ String (hex_digit (n / 16)) (String (hex_digit (n mod 16)) "")
  else String c "".

Fixpoint escape (s : string) : string :=
  match s with
  | EmptyString => EmptyString
  | String c r => escape_char c ++ escape r
  end.

Definition quote (s : string) : string :=
  String "034" (escape s ++ String "034" "").

Fixpoint join (sep : string) (l : list string) : string :=
  match l with
  | [] => ""
  | [x] => x
  | x :: r => x ++ sep ++ join sep r
  end.

Definition Z_to_string (n : Z) : string :=
  DecimalString.NilZero.string_of_int (Z.to_int n).

(** [JSON.stringify(v)] without indentation. *)
Fixpoint stringify (v : json) : string :=
  match v with
  | JNull => "null"
  | JBool true => "true"
  | JBool false => "false"
  | JNum n => Z_to_string n
  | JStr s => quote s
  | JArr items => "[" ++ join "," (map stringify items) ++ "]"
  | JObj fields =>
      "{" ++ join "," (map (fun kv => quote (fst kv) ++ ":" ++ stringify (snd kv)) fields)
          ++ "}"
  end.

(** *** Reading JSON text

    A reader for the JSON grammar restricted to integer numbers and
    to code units below 256 in [\u] escapes. *)

Definition is_ws (c : ascii) : bool :=
  let n := nat_of_ascii c in
  (n =? 32)%nat || (n =? 9)%nat || (n =? 10)%nat || (n =? 13)%nat.

Fixpoint skip_ws (s : string) : string :=
  match s with
  | String c r => if is_ws c then skip_ws r else s
  | EmptyString => EmptyString
  end.

Definition hex_val (c : ascii) : option nat :=
  let n := nat_of_ascii c in
  if (48 <=? n)%nat && (n <=? 57)%nat then Some (n - 48)%nat
  else if (97 <=? n)%nat && (n <=? 102)%nat then Some (n - 87)%nat
  else if (65 <=? n)%nat && (n <=? 70)%nat then Some (n - 55)%nat
  else None.

Definition unescape (e : ascii) : option ascii :=
  let n := nat_of_ascii e in
  if (n =? 34)%nat || (n =? 92)%nat || (n =? 47)%nat then Some e
  else if (n =? 98)%nat then Some "008"%char
  else if (n =? 116)%nat then Some "009"%char
  else if (n =? 110)%nat then Some "010"%char
  else if (n =? 102)%nat then Some "012"%char
  else if (n =? 114)%nat then Some "013"%char
  else None.

(** The characters of a string literal after its opening quote, with
    the text that follows the closing quote. *)
Fixpoint read_chars (s : string) : option (string * string) :=
  match s with
  | EmptyString => None
  | String c r =>
      if (nat_of_ascii c =? 34)%nat then Some ("", r)
      else if (nat_of_ascii c =? 92)%nat then
        match r with
        | String e r1 =>
            if (nat_of_ascii e =? 117)%nat then
              match r1 with
              | String h1 (String h2 (String h3 (String h4 r2))) =>
                  a ← hex_val h1; b ← hex_val h2;
                  c ← hex_val h3; d ← hex_val h4;
                  if (a =? 0)%nat && (b =? 0)%nat then
                    '(t, rest) ← read_chars r2;
                    Some (String (ascii_of_nat (16 * c + d)) t, rest)
                  else None
              | _ => None
              end
            else
              c' ← unescape e;
              '(t, rest) ← read_chars r1;
              Some (String c' t, rest)
        | EmptyString => None
        end
      else if (nat_of_ascii c <? 32)%nat then None
      else '(t, rest) ← read_chars r; Some (String c t, rest)
  end.

Definition is_digit (c : ascii) : bool :=
  (48 <=? nat_of_ascii c)%nat && (nat_of_ascii c <=? 57)%nat.

Fixpoint read_digits (acc : Z) (s : string) : Z * string :=
  match s with
  | String c r =>
      if is_digit c then read_digits (10 * acc + Z.of_nat (nat_of_ascii c - 48)) r
      else (acc, s)
  | EmptyString => (acc, s)
  end.

Definition read_literal (s : string) : option (json * string) :=
  if String.prefix "null" s then Some (JNull, JS.drop_prefix 4 s)
  else if String.prefix "true" s then Some (JBool true, JS.drop_prefix 4 s)
  else if String.prefix "false" s then Some (JBool false, JS.drop_prefix 5 s)
  else
    match s with
    | String "-" (String c r) =>
        if is_digit c then
          let '(n, rest) := read_digits 0 (String c r) in Some (JNum (- n), rest)
        else None
    | String c _ =>
        if is_digit c then
          let '(n, rest) := read_digits 0 s in Some (JNum n, rest)
        else None
    | EmptyString => None
    end.

Fixpoint read_value (fuel : nat) (s : string) {struct fuel} : option (json * string) :=
  match fuel with
  | O => None
  | S f =>
      match skip_ws s with
      | String "034" r => '(t, rest) ← read_chars r; Some (JStr t, rest)
      | String "[" r =>
          match skip_ws r with
          | String "]" rest => Some (JArr [], rest)
          | _ => '(l, rest) ← read_elements f r; Some (JArr l, rest)
          end
      | String "{" r =>
          match skip_ws r with
          | String "}" rest => Some (JObj [], rest)
          | _ => '(l, rest) ← read_members f r; Some (JObj l, rest)
          end
      | other => read_literal other
      end
  end
with read_elements (fuel : nat) (s : string) {struct fuel}
  : option (list json * string) :=
  match fuel with
  | O => None
  | S f =>
      '(v, r) ← read_value f s;
      match skip_ws r with
      | String "," r' => '(l, rest) ← read_elements f r'; Some (v :: l, rest)
      | String "]" rest => Some ([v], rest)
      | _ => None
      end
  end
with read_members (fuel : nat) (s : string) {struct fuel}
  : option (list (string * json) * string) :=
  match fuel with
  | O => None
  | S f =>
      match skip_ws s with
      | String "034" r =>
          '(k, r1) ← read_chars r;
          match skip_ws r1 with
          | String ":" r2 =>
              '(v, r3) ← read_value f r2;
              match skip_ws r3 with
              | String "," r' => '(l, rest) ← read_members f r'; Some ((k, v) :: l, rest)
              | String "}" rest => Some ([(k, v)], rest)
              | _ => None
              end
          | _ => None
          end
      | _ => None
      end
  end.

(** [JSON.parse(s)]: [None] when the text is not read as one value. *)
Definition parse (s : string) : option json :=
  '(v, rest) ← read_value (S (String.length s)) s;
  match skip_ws rest with
  | EmptyString => Some v
  | _ => None
  end.

(** The text [stringify] gives one property of an object. *)
Definition member_text (kv : string * json) : string :=
  quote (fst kv) ++ ":" ++ stringify (snd kv).

(** A string or an empty array: the values of the error bodies. *)
Definition flat (v : json) : Prop :=
  match v with
  | JStr _ => True
  | JArr [] => True
  | _ => False
  end.

(** The text reads as a JSON object whose [flights] property is the
    empty array. *)
Definition has_empty_flights (text : string) : Prop :=
  exists fields, parse text = Some (JObj fields) /\ assoc "flights" fields = Some (JArr []).

(** The text reads as a JSON object without a [flights] property. *)
Definition lacks_flights (text : string) : Prop :=
  exists fields, parse text = Some (JObj fields) /\ assoc "flights" fields = None.

End Json.

(** ** The Schiphol function *)

Module Arrivals.

Import Json.

Definition CACHE_DURATION : Z := 30 * 24 * 60 * 60 * 1000.
Definition FLIGHT_CACHE_DURATION : Z := 15 * 60 * 1000.
Definition MAX_API_CALLS : Z := 90.

(** [getFlagEmoji(countryCode)]: two regional-indicator code points. *)
Definition getFlagEmoji (countryCode : option string) : completion (list Z) :=
  if negb (truthy countryCode) then Normal []
  else
    let code := toUpperCase (or_empty countryCode) in
    cbind (fromCodePoint ((fun c => 127462 + c - 65) <$> charCodeAt code 0)) (fun a =>
    cbind (fromCodePoint ((fun c => 127462 + c - 65) <$> charCodeAt code 1)) (fun b =>
    Normal (a ++ b)%list)).

(** *** Link header *)

Definition rel_next : string := "rel=" ++ quoted "next".

(** The body of the [for] loop of [getNextPageUrl] on one link entry
    that carries [rel="next"]: [None] when an angle bracket is missing
    and the loop goes on. *)
Definition next_url_of (link : string) : option string :=
  match indexOf "<" link, indexOf ">" link with
  | Some i, Some (S j) =>
      let nextUrl := substring (S i) (S j) link in
      if includes "protocol://" nextUrl then
        Some (replace_first "protocol://server_address:port"
                            "https://api.schiphol.nl" nextUrl)
      else if startsWith "/" nextUrl then Some ("https://api.schiphol.nl" ++ nextUrl)
      else Some nextUrl
  | _, _ => None
  end.

Fixpoint first_next (links : list string) : option string :=
  match links with
  | [] => None
  | link :: r =>
      if includes rel_next link then
        match next_url_of link with
        | Some u => Some u
        | None => first_next r
        end
      else first_next r
  end.

(** [getNextPageUrl(headers)], on the value of [headers.link]. *)
Definition getNextPageUrl (link : option string) : option string :=
  if negb (truthy link) then None
  else first_next (map trim (split "," (or_empty link))).

(** *** Data *)

(** Value stored in [airportCache]. *)
Record AirportData : Type := {
  city : option string;
  country : option string;
  name : option string;
  source : option string
}.

(** What one GET on the aviationstack airports endpoint leads to. *)
Inductive ApiReply : Type :=
| ApiFailure
| ApiEmpty
| ApiAirport (city_name country_iso2 airport_name : option string).

Record CityInfo : Type := {
  ci_city : option string;
  ci_country : option string;
  ci_flag : list Z;
  ci_airportName : option string;
  ci_source : option string
}.

(** The fields of an upstream flight that the function reads or
    writes; [destination] is [route?.destinations?.[0]]. *)
Record Flight : Type := {
  scheduleDate : option string;
  scheduleTime : option string;
  destination : option string;
  cityInfo : option CityInfo
}.

(** Request parameters: an object with string and number values. *)
Definition Params : Type := list (string * json).

(** What one GET on the flights endpoint leads to: a rejected request,
    or a status, [data.flights] (entries may be [null]) and the Link
    header. *)
Inductive HttpReply : Type :=
| NetworkError
| HttpReplied (status : Z) (data_flights : option (list (option Flight)))
              (link : option string).

Record Page : Type := {
  flights : list (option Flight);
  hasMore : bool;
  nextUrl : option string
}.

Record TimeWindow : Type := {
  displayName : string;
  startTime : option string;
  endTime : option string;
  dynamicWindow : bool;
  description : string
}.

Definition TIME_WINDOWS : list (string * TimeWindow) :=
  [ ("morning", {| displayName := "Morning Arrivals"; startTime := Some "06:00";
                   endTime := Some "11:59"; dynamicWindow := false;
                   description := "6AM-12PM" |});
    ("afternoon", {| displayName := "Afternoon Arrivals"; startTime := Some "12:00";
                     endTime := Some "17:59"; dynamicWindow := false;
                     description := "12PM-6PM" |});
    ("evening", {| displayName := "Evening Arrivals"; startTime := Some "18:00";
                   endTime := Some "21:59"; dynamicWindow := false;
                   description := "6PM-10PM" |});
    ("night", {| displayName := "Night Arrivals"; startTime := Some "22:00";
                 endTime := Some "23:59"; dynamicWindow := false;
                 description := "10PM-12AM" |});
    ("early_morning", {| displayName := "Early Morning Arrivals";
                         startTime := Some "00:00"; endTime := Some "05:59";
                         dynamicWindow := false; description := "12AM-6AM" |});
    ("current", {| displayName := "Current Arrivals"; startTime := None;
                   endTime := None; dynamicWindow := true;
                   description := "Now " ++ String "177" "2 hours" |}) ].

Record TimeInfo : Type := {
  queryTime : string;
  targetDate : option string;
  ti_timeWindow : option string;
  windowDetails : option TimeWindow
}.

Record Meta : Type := {
  totalFlights : Z;
  pagesRetrieved : Z;
  hasMorePages : bool;
  cached : bool;
  availableTimeWindows : list (string * string * string)
}.

(** The response payload. *)
Record Response : Type := {
  r_flights : list Flight;
  timeInfo : TimeInfo;
  meta : Meta
}.

Record CacheEntry : Type := {
  data : Response;
  timestamp : Z
}.

(** The body of an HTTP response: the text of an error body, or the
    payload whose [JSON.stringify] is the body (with the two ages the
    cached branch adds to [meta]). *)
Inductive Body : Type :=
| BodyText (text : string)
| BodyOf (r : Response)
| BodyOfCached (r : Response) (cacheAge nextUpdate : Z).

Record HttpResponse : Type := {
  statusCode : Z;
  headers : list (string * string);
  body : Body
}.

(** [nlTime] and what the handler derives from it: [getTime()],
    [format(nlTime, 'yyyy-MM-dd')], [getHours()], [getMinutes()], the
    two ends of the 24-hour range and [toISOString()]. *)
Record LocalTime : Type := {
  lt_getTime : Z;
  lt_date : string;
  lt_hours : Z;
  lt_minutes : Z;
  lt_from : string;
  lt_to : string;
  lt_iso : string
}.

(** The outside of the process.  [clock] is [Date.now()], [local_time]
    is [new Date()] moved to Europe/Amsterdam, [aviationstack] the
    primary lookup API, [openflights] the dataset ([None] when the GET
    fails) and [schiphol] the flights API, each read at the current
    tick; [date_parse] is [new Date(string).getTime()] with NaN as
    [None], and [localeCompare] the collation of the runtime. *)
Record World : Type := {
  clock : nat -> Z;
  local_time : nat -> LocalTime;
  aviationstack : nat -> string -> ApiReply;
  openflights : nat -> option string;
  schiphol : nat -> option string -> option Params -> HttpReply;
  date_parse : string -> option Z;
  localeCompare : string -> string -> Z
}.

(** The module-level variables.  [flightDataCache] keeps the insertion
    order of the [Map]. *)
Record State : Type := {
  airportCache : gmap string AirportData;
  lastCacheUpdate : option Z;
  apiCallsCount : Z;
  flightDataCache : list (string * CacheEntry);
  tick : nat
}.

(** *** State monad *)

Definition M (A : Type) : Type := State -> A * State.

#[global] Instance M_ret : MRet M := fun A a s => (a, s).
#[global] Instance M_bind : MBind M :=
  fun A B f m s => let '(a, s') := m s in f a s'.

Definition get_state : M State := fun s => (s, s).

Definition set_airportCache (c : gmap string AirportData) : M unit :=
  fun s => (tt, {| airportCache := c; lastCacheUpdate := lastCacheUpdate s;
                   apiCallsCount := apiCallsCount s;
                   flightDataCache := flightDataCache s; tick := tick s |}).

Definition set_lastCacheUpdate (t : option Z) : M unit :=
  fun s => (tt, {| airportCache := airportCache s; lastCacheUpdate := t;
                   apiCallsCount := apiCallsCount s;
                   flightDataCache := flightDataCache s; tick := tick s |}).

Definition set_apiCallsCount (n : Z) : M unit :=
  fun s => (tt, {| airportCache := airportCache s;
                   lastCacheUpdate := lastCacheUpdate s;
                   apiCallsCount := n;
                   flightDataCache := flightDataCache s; tick := tick s |}).

Definition set_flightDataCache (c : list (string * CacheEntry)) : M unit :=
  fun s => (tt, {| airportCache := airportCache s;
                   lastCacheUpdate := lastCacheUpdate s;
                   apiCallsCount := apiCallsCount s;
                   flightDataCache := c; tick := tick s |}).

(** Reads an oracle at the current tick and advances the tick. *)
Definition effect {A} (f : nat -> A) : M A :=
  fun s => (f (tick s),
            {| airportCache := airportCache s;
               lastCacheUpdate := lastCacheUpdate s;
               apiCallsCount := apiCallsCount s;
               flightDataCache := flightDataCache s; tick := S (tick s) |}).

(** Truthiness of a timestamp: [null] and [0] are falsy. *)
Definition truthy_num (o : option Z) : bool :=
  match o with
  | Some n => negb (n =? 0)
  | None => false
  end.

Fixpoint for_each {A} (f : A -> M unit) (l : list A) : M unit :=
  match l with
  | [] => mret tt
  | x :: r => f x ;; for_each f r
  end.

(** *** Airport metadata resolver *)

(** One record of the dataset, as the [map] callback builds it. *)
Record Airport : Type := {
  a_iata : string;
  a_city : string;
  a_country : string;
  a_name : string
}.

Definition unquote (s : string) : string := remove_char "034" s.

Definition parse_line (line : string) : option Airport :=
  let parts := split "," line in
  if (5 <=? length parts)%nat then
    Some {| a_iata := unquote (nth 4 parts "");
            a_city := unquote (nth 2 parts "");
            a_country := unquote (nth 3 parts "");
            a_name := unquote (nth 1 parts "") |}
  else None.

(** [response.data.split('\n').map(...).filter(...)] *)
Definition parse_airports (dat : string) : list Airport :=
  List.filter (fun a => (String.length (a_iata a) =? 3)%nat)
              (omap parse_line (split "010" dat)).

Definition dataset_entry (a : Airport) : AirportData :=
  {| city := Some (a_city a); country := Some (a_country a);
     name := Some (a_name a); source := None |}.

(** [airports.forEach(airport => airportCache.set(...))] *)
Definition store_airports (l : list Airport) (c : gmap string AirportData)
  : gmap string AirportData :=
  fold_left (fun m a => <[a_iata a := dataset_entry a]> m) l c.

Section Resolver.

Variable w : World.

Definition Date_now : M Z := effect (clock w).

(** The guard of the bulk load, evaluated left to right:
    [airportCache.size === 0 || !lastCacheUpdate ||
     (Date.now() - lastCacheUpdate) >= CACHE_DURATION]. *)
Definition cache_empty_or_expired : M bool :=
  s ← get_state;
  if (size (airportCache s) =? 0)%nat then mret true
  else if negb (truthy_num (lastCacheUpdate s)) then mret true
  else
    now ← Date_now;
    mret (CACHE_DURATION <=? now - default 0 (lastCacheUpdate s)).

(** [fetchOpenFlightsData()]: a failed GET is caught and logged. *)
Definition fetchOpenFlightsData : M unit :=
  stale ← cache_empty_or_expired;
  if stale : bool then
    response ← effect (openflights w);
    match response with
    | Some dat =>
        s ← get_state;
        set_airportCache (store_airports (parse_airports dat) (airportCache s)) ;;
        now ← Date_now;
        set_lastCacheUpdate (Some now)
    | None => mret tt
    end
  else mret tt.

(** The first [if] of [fetchAirportData]: the cached value when the
    code is cached and the cache is stamped and fresh. *)
Definition cached_fresh (iataCode : string) : M (option AirportData) :=
  s ← get_state;
  match airportCache s !! iataCode with
  | Some cachedData =>
      if truthy_num (lastCacheUpdate s) then
        now ← Date_now;
        if now - default 0 (lastCacheUpdate s) <? CACHE_DURATION
        then mret (Some cachedData) else mret None
      else mret None
  | None => mret None
  end.

Definition cache_get (iataCode : string) : M (option AirportData) :=
  s ← get_state; mret (airportCache s !! iataCode).

(** [fetchAirportData(iataCode)] *)
Definition fetchAirportData (iataCode : string) : M (option AirportData) :=
  hit ← cached_fresh iataCode;
  match hit with
  | Some cachedData => mret (Some cachedData)
  | None =>
      s ← get_state;
      if MAX_API_CALLS <=? apiCallsCount s then
        fetchOpenFlightsData ;; cache_get iataCode
      else
        response ← effect (fun t => aviationstack w t iataCode);
        match response with
        | ApiFailure => fetchOpenFlightsData ;; cache_get iataCode
        | ApiEmpty =>
            s1 ← get_state;
            set_apiCallsCount (apiCallsCount s1 + 1) ;;
            mret None
        | ApiAirport city_name country_iso2 airport_name =>
            s1 ← get_state;
            set_apiCallsCount (apiCallsCount s1 + 1) ;;
            let result := {| city := city_name; country := country_iso2;
                             name := airport_name;
                             source := Some "aviationstack" |} in
            s2 ← get_state;
            set_airportCache (<[iataCode := result]> (airportCache s2)) ;;
            s3 ← get_state;
            (if negb (truthy_num (lastCacheUpdate s3)) then
               now ← Date_now; set_lastCacheUpdate (Some now)
             else mret tt) ;;
            mret (Some result)
        end
  end.

(** [batchFetchAirportData(iataCodes)] *)
Definition batchFetchAirportData (iataCodes : list string) : M unit :=
  s ← get_state;
  let uncachedCodes :=
    List.filter (fun code => negb (bool_decide (is_Some (airportCache s !! code))))
                iataCodes in
  if (length uncachedCodes =? 0)%nat then mret tt
  else if MAX_API_CALLS <? apiCallsCount s + Z.of_nat (length uncachedCodes) then
    fetchOpenFlightsData
  else for_each (fun code => fetchAirportData code ;; mret tt) uncachedCodes.

End Resolver.

(** *** Flight processing *)

Definition is_upper (c : ascii) : bool :=
  (65 <=? nat_of_ascii c)%nat && (nat_of_ascii c <=? 90)%nat.

(** [s.match(/\(([A-Z]{3})\)/)]: the captured group of the leftmost
    match. *)
Fixpoint match_iata (s : string) : option string :=
  match s with
  | EmptyString => None
  | String c r =>
      let here :=
        match r with
        | String x (String y (String z (String e _))) =>
            if Ascii.eqb c "(" && is_upper x && is_upper y && is_upper z
               && Ascii.eqb e ")"
            then Some (String x (String y (String z "")))
            else None
        | _ => None
        end in
      match here with
      | Some code => Some code
      | None => match_iata r
      end
  end.

(** The code a flight refers to, if any. *)
Definition flight_code (f : Flight) : option string :=
  if truthy (destination f) then match_iata (or_empty (destination f)) else None.

(** [iataCodes.add(code)] on a [Set] kept in insertion order. *)
Definition set_add (code : string) (l : list string) : list string :=
  if bool_decide (code ∈ l) then l else (l ++ [code])%list.

Definition collect_codes (fs : list Flight) : list string :=
  fold_left (fun acc f => match flight_code f with
                          | Some code => set_add code acc
                          | None => acc
                          end) fs [].

(** A [null] or [undefined] in a template literal. *)
Definition template (o : option string) : string := default "null" o.

(** The callback of [flights.map] in [processFlightData]. *)
Definition attach_city (cache : gmap string AirportData) (f : Flight)
  : completion Flight :=
  match flight_code f with
  | Some iataCode =>
      match cache !! iataCode with
      | Some airportData =>
          cbind (getFlagEmoji (country airportData)) (fun flag =>
          Normal
            {| scheduleDate := scheduleDate f;
               scheduleTime := scheduleTime f;
               destination :=
                 if negb (includes "(" (or_empty (destination f)))
                 then Some (template (city airportData) ++ " (" ++ iataCode ++ ")")
                 else destination f;
               cityInfo :=
                 Some {| ci_city := city airportData;
                         ci_country := country airportData;
                         ci_flag := flag;
                         ci_airportName := name airportData;
                         ci_source := source airportData |} |})
      | None => Normal f
      end
  | None => Normal f
  end.

(** [Promise.all] over callbacks that run in order: the first
    rejection is the outcome. *)
Fixpoint all_of {A B} (f : A -> completion B) (l : list A) : completion (list B) :=
  match l with
  | [] => Normal []
  | x :: r =>
      match f x, all_of f r with
      | Throw e, _ => Throw e
      | Normal _, Throw e => Throw e
      | Normal y, Normal ys => Normal (y :: ys)
      end
  end.

(** [validParams] of [validateAndCleanParams]. *)
Definition validParams : list string :=
  [ "scheduleDate"; "scheduleTime"; "flightName"; "flightDirection";
    "airline"; "airlineCode"; "route"; "includedelays"; "page";
    "sort"; "fromDateTime"; "toDateTime"; "searchDateTimeField";
    "fromScheduleDate"; "toScheduleDate"; "isOperationalFlight" ].

(** [obj[k] = v]: in place when the key exists, appended otherwise. *)
Fixpoint set_prop {V} (k : string) (v : V) (obj : list (string * V))
  : list (string * V) :=
  match obj with
  | [] => [(k, v)]
  | (k', v') :: r =>
      if String.eqb k k' then (k, v) :: r else (k', v') :: set_prop k v r
  end.

Fixpoint get_prop {V} (k : string) (obj : list (string * V)) : option V :=
  match obj with
  | [] => None
  | (k', v) :: r => if String.eqb k k' then Some v else get_prop k r
  end.

(** [delete obj[k]] *)
Definition delete_prop {V} (k : string) (obj : list (string * V))
  : list (string * V) :=
  List.filter (fun kv => negb (String.eqb k (fst kv))) obj.

(** [validateAndCleanParams(params)] *)
Definition validateAndCleanParams (params : list (string * string)) : Params :=
  let cleanedParams :=
    fold_left (fun acc kv =>
                 if bool_decide (fst kv ∈ validParams)
                 then set_prop (fst kv) (JStr (snd kv)) acc else acc)
              params [] in
  set_prop "flightDirection" (JStr "A") cleanedParams.

(** [estimateStartingPage(nlTime)], on [getHours()] and
    [getMinutes()]. *)
Definition estimateStartingPage (hour minute : Z) : Z :=
  let hoursFromStart := if hour - 6 <? 0 then hour - 6 + 24 else hour - 6 in
  let hourBasedPage := hoursFromStart * 2 in
  let minuteAdjustment := (minute * 2) / 60 in
  Z.max 0 (hourBasedPage + minuteAdjustment).

(** [getFlightCacheKey(date, timeWindow, params)] *)
Definition getFlightCacheKey (date : string) (timeWindow : option string)
           (params : list (string * string)) : string :=
  if (0 <? length params)%nat then
    let relevantParams := delete_prop "page" params in
    date ++ "_" ++ stringify (JObj (map (fun kv => (fst kv, JStr (snd kv))) relevantParams))
  else date ++ "_" ++ (if truthy timeWindow then or_empty timeWindow else "all").

(** [Math.round(x / 1000)] for an integer [x]. *)
Definition round_seconds (x : Z) : Z := (x + 500) / 1000.

Definition empty_page : Page := {| flights := []; hasMore := false; nextUrl := None |}.

(** [Map.prototype.set] on the ordered cache. *)
Definition map_set (k : string) (e : CacheEntry) (c : list (string * CacheEntry))
  : list (string * CacheEntry) := set_prop k e c.

Definition map_get (k : string) (c : list (string * CacheEntry)) : option CacheEntry :=
  get_prop k c.

(** The local variables of the paginate loop. *)
Record Loop : Type := {
  allFlights : list Flight;
  pageCount : Z;
  totalFlightsSeen : Z;
  currentUrl : option string;
  currentParams : option Params;
  l_hasMore : bool;
  pastFlightPagesCount : Z
}.

Definition MAX_PAST_PAGES : Z := 3.

(** How one evaluation of the [while] statement ends: the condition is
    false or a [break] runs, the body reaches its end, or it throws. *)
Inductive Step : Type :=
| Exit (l : Loop)
| Continue (l : Loop)
| Raise (e : exn).

Record Env : Type := {
  SCHIPHOL_APP_ID : option string;
  SCHIPHOL_APP_KEY : option string
}.

Section Handler.

Variable w : World.

(** [isFlightInFuture(flight, currentTime)]; a [null] flight makes
    the property read throw. *)
Definition isFlightInFuture (flight : option Flight) (currentTime : Z)
  : completion bool :=
  match flight with
  | None => Throw (TypeError "Cannot read properties of null (reading 'scheduleDate')")
  | Some f =>
      if negb (truthy (scheduleDate f)) || negb (truthy (scheduleTime f))
      then Normal false
      else
        match date_parse w (or_empty (scheduleDate f) ++ "T"
                            ++ or_empty (scheduleTime f)) with
        | Some scheduleDatetime =>
            Normal (currentTime - 15 * 60 * 1000 <=? scheduleDatetime)
        | None => Normal false
        end
  end.

(** [flights.filter(flight => isFlightInFuture(flight, nlTime))] *)
Fixpoint filter_future (fs : list (option Flight)) (currentTime : Z)
  : completion (list Flight) :=
  match fs with
  | [] => Normal []
  | f :: r =>
      cbind (isFlightInFuture f currentTime) (fun keep =>
      cbind (filter_future r currentTime) (fun rest =>
      Normal (match f with
              | Some x => if keep : bool then x :: rest else rest
              | None => rest
              end)))
  end.

(** [fetchPage(url, headers, params)] *)
Definition fetchPage (url : option string) (params : option Params) : M Page :=
  reply ← effect (fun t => schiphol w t url params);
  match reply with
  | NetworkError => mret empty_page
  | HttpReplied status data_flights link =>
      if negb (status =? 200) then mret empty_page
      else
        let next := getNextPageUrl link in
        mret {| flights := default [] data_flights;
                hasMore := truthy next;
                nextUrl := next |}
  end.

(** [isFlightCacheValid(cacheEntry)] *)
Definition isFlightCacheValid (cacheEntry : option CacheEntry) : M bool :=
  match cacheEntry with
  | None => mret false
  | Some e =>
      if timestamp e =? 0 then mret false
      else now ← Date_now w; mret (now - timestamp e <? FLIGHT_CACHE_DURATION)
  end.

(** The clean-up loop over [flightDataCache.entries()]. *)
Fixpoint sweep (entries : list (string * CacheEntry))
  : M (list (string * CacheEntry)) :=
  match entries with
  | [] => mret []
  | (k, e) :: r =>
      valid ← isFlightCacheValid (Some e);
      kept ← sweep r;
      mret (if valid : bool then (k, e) :: kept else kept)
  end.

(** [flightDataCache.set(cacheKey, { data, timestamp: Date.now() })]
    followed by the clean-up loop. *)
Definition cache_store (cacheKey : string) (response : Response) : M unit :=
  now ← Date_now w;
  s ← get_state;
  set_flightDataCache
    (map_set cacheKey {| data := response; timestamp := now |} (flightDataCache s)) ;;
  s1 ← get_state;
  kept ← sweep (flightDataCache s1);
  set_flightDataCache kept.

(** The cache check of the handler: the entry, when it is valid. *)
Definition cache_lookup (cacheKey : string) : M (option CacheEntry) :=
  s ← get_state;
  let cachedData := map_get cacheKey (flightDataCache s) in
  valid ← isFlightCacheValid cachedData;
  mret (if valid : bool then cachedData else None).

(** One evaluation of
    [while (hasMore && pageCount < maxPages) { ... }]. *)
Definition iteration (maxPages nlTime : Z) (l : Loop) : M Step :=
  if negb (l_hasMore l && (pageCount l <? maxPages)) then mret (Exit l)
  else
    page ← fetchPage (currentUrl l)
                     (if pageCount l =? 0 then currentParams l else None);
    if (length (flights page) =? 0)%nat then mret (Exit l)
    else
      match filter_future (flights page) nlTime with
      | Throw e => mret (Raise e)
      | Normal futureFlights =>
          let past :=
            if (length futureFlights =? 0)%nat
            then pastFlightPagesCount l + 1 else 0 in
          if (length futureFlights =? 0)%nat && (MAX_PAST_PAGES <=? past) then
            mret (Exit {| allFlights := allFlights l;
                          pageCount := pageCount l;
                          totalFlightsSeen := totalFlightsSeen l;
                          currentUrl := currentUrl l;
                          currentParams := currentParams l;
                          l_hasMore := l_hasMore l;
                          pastFlightPagesCount := past |})
          else
            let seen := totalFlightsSeen l + Z.of_nat (length (flights page)) in
            let all := (allFlights l ++ futureFlights)%list in
            if negb (hasMore page) then
              mret (Exit {| allFlights := all; pageCount := pageCount l;
                            totalFlightsSeen := seen;
                            currentUrl := currentUrl l;
                            currentParams := currentParams l;
                            l_hasMore := false;
                            pastFlightPagesCount := past |})
            else if maxPages - 1 <=? pageCount l then
              mret (Exit {| allFlights := all; pageCount := pageCount l;
                            totalFlightsSeen := seen;
                            currentUrl := currentUrl l;
                            currentParams := currentParams l;
                            l_hasMore := hasMore page;
                            pastFlightPagesCount := past |})
            else
              mret (Continue {| allFlights := all;
                                pageCount := pageCount l + 1;
                                totalFlightsSeen := seen;
                                currentUrl := nextUrl page;
                                currentParams := None;
                                l_hasMore := l_hasMore l;
                                pastFlightPagesCount := past |})
      end.

(** The [while] statement, at most [fuel] evaluations: [None] when
    they do not suffice. *)
Fixpoint paginate (fuel : nat) (maxPages nlTime : Z) (l : Loop)
  : M (option (completion Loop)) :=
  match fuel with
  | O => mret None
  | S n =>
      step ← iteration maxPages nlTime l;
      match step with
      | Exit l' => mret (Some (Normal l'))
      | Raise e => mret (Some (Throw e))
      | Continue l' => paginate n maxPages nlTime l'
      end
  end.

(** [processFlightData(flights)] *)
Definition processFlightData (fs : list Flight) : M (completion (list Flight)) :=
  batchFetchAirportData w (collect_codes fs) ;;
  s ← get_state;
  mret (all_of (attach_city (airportCache s)) fs).

(** The comparator of [allFlights.sort]. *)
Definition by_scheduleTime (a b : Flight) : Z :=
  if negb (truthy (scheduleTime a)) then 1
  else if negb (truthy (scheduleTime b)) then -1
  else localeCompare w (or_empty (scheduleTime a)) (or_empty (scheduleTime b)).

Definition string_param (k : string) (p : Params) : option string :=
  match get_prop k p with
  | Some (JStr v) => Some v
  | _ => None
  end.

Definition ok_headers : list (string * string) :=
  [ ("Content-Type", "application/json");
    ("Cache-Control", "public, s-maxage=60, stale-while-revalidate=30") ].

Definition config_error : HttpResponse :=
  {| statusCode := 500; headers := [];
     body := BodyText (stringify (JObj [("message", JStr "Server configuration error.")])) |}.

(** The response of the [catch] block. *)
Definition internal_error (e : exn) : HttpResponse :=
  {| statusCode := 500; headers := [];
     body := BodyText (stringify (JObj [ ("message", JStr "Internal Server Error.");
                                         ("error", JStr (message e));
                                         ("flights", JArr []) ])) |}.

(** [parseInt(queryParams.maxPages) || 200] *)
Definition maxPages_of (queryParams : list (string * string)) : Z :=
  match parseInt (get_prop "maxPages" queryParams) with
  | Some n => if n =? 0 then 200 else n
  | None => 200
  end.

(** The request parameters before the [try] block. *)
Definition build_apiParams (nl : LocalTime) (rawQueryParams : list (string * string))
  : Params :=
  let apiParams :=
    if (0 <? length rawQueryParams)%nat then validateAndCleanParams rawQueryParams
    else set_prop "searchDateTimeField" (JStr "scheduleDateTime")
           (set_prop "toDateTime" (JStr (lt_to nl))
              (set_prop "fromDateTime" (JStr (lt_from nl))
                 [("flightDirection", JStr "A")])) in
  let apiParams :=
    match get_prop "sort" apiParams with
    | Some (JStr (String _ _)) => apiParams
    | _ => set_prop "sort" (JStr "+scheduleTime") apiParams
    end in
  match get_prop "page" apiParams with
  | Some _ => apiParams
  | None => set_prop "page" (JNum 0) apiParams
  end.

(** The statements of the [try] block after the loop. *)
Definition respond (nl : LocalTime) (timeWindow : option string)
           (apiParams : Params) (cacheKey : string) (l : Loop)
  : M (completion HttpResponse) :=
  processed ← processFlightData (allFlights l);
  match processed with
  | Throw e => mret (Throw e)
  | Normal flights =>
      let sorted := sort_by by_scheduleTime flights in
      let response :=
        {| r_flights := sorted;
           timeInfo :=
             {| queryTime := lt_iso nl;
                targetDate :=
                  or_else (string_param "scheduleDate" apiParams)
                          ((fun d => hd "" (split "T" d))
                             <$> string_param "fromDateTime" apiParams);
                ti_timeWindow := timeWindow;
                windowDetails := tw ← timeWindow; get_prop tw TIME_WINDOWS |};
           meta :=
             {| totalFlights := Z.of_nat (length sorted);
                pagesRetrieved := pageCount l + 1;
                hasMorePages := l_hasMore l;
                cached := false;
                availableTimeWindows :=
                  map (fun kv => (fst kv, displayName (snd kv), description (snd kv)))
                      TIME_WINDOWS |} |} in
      cache_store cacheKey response ;;
      mret (Normal {| statusCode := 200; headers := ok_headers;
                      body := BodyOf response |})
  end.

(** [exports.handler]: [None] only if the evaluations granted to
    the loop did not suffice. *)
Definition handler (env : Env) (queryParams : list (string * string))
  : M (option HttpResponse) :=
  if negb (truthy (SCHIPHOL_APP_ID env)) || negb (truthy (SCHIPHOL_APP_KEY env))
  then mret (Some config_error)
  else
    nl ← effect (local_time w);
    let todayDate := lt_date nl in
    let timeWindow := get_prop "timeWindow" queryParams in
    let rawQueryParams :=
      delete_prop "useDateTimeRange"
        (delete_prop "maxPages" (delete_prop "timeWindow" queryParams)) in
    let maxPages := maxPages_of queryParams in
    let cacheKey := getFlightCacheKey todayDate timeWindow rawQueryParams in
    hit ← cache_lookup cacheKey;
    match hit with
    | Some cachedData =>
        now1 ← Date_now w;
        now2 ← Date_now w;
        mret (Some {| statusCode := 200; headers := ok_headers;
                      body := BodyOfCached (data cachedData)
                                (round_seconds (now1 - timestamp cachedData))
                                (round_seconds (timestamp cachedData
                                                + FLIGHT_CACHE_DURATION - now2)) |})
    | None =>
        let apiParams := build_apiParams nl rawQueryParams in
        let estimatedStartPage := estimateStartingPage (lt_hours nl) (lt_minutes nl) in
        let apiParams :=
          if 0 <? estimatedStartPage
          then set_prop "page" (JNum estimatedStartPage) apiParams
          else apiParams in
        looped ← paginate (S (Z.to_nat maxPages)) maxPages (lt_getTime nl)
                   {| allFlights := []; pageCount := 0; totalFlightsSeen := 0;
                      currentUrl := Some "https://api.schiphol.nl/public-flights/flights";
                      currentParams := Some apiParams; l_hasMore := true;
                      pastFlightPagesCount := 0 |};
        match looped with
        | None => mret None
        | Some (Throw e) => mret (Some (internal_error e))
        | Some (Normal l) =>
            out ← respond nl timeWindow apiParams cacheKey l;
            match out with
            | Throw e => mret (Some (internal_error e))
            | Normal r => mret (Some r)
            end
        end
    end.

End Handler.

End Arrivals.

(** ** The multi-status function (arrivals-cdg.js)

    The body of the function assigned to [exports.handler] declares
    [const queryParams] at line 8 and again at line 27, so the file is
    rejected when it is loaded and none of its statements ever runs.
    The embedding is that of the load: the scopes of the file with the
    names they declare, the early error a scope with a redeclaration
    raises, and a request as the runtime would hand it to what the
    file exports. *)

Module ArrivalsCdg.

(** [f.flight.codeshared] of the feed: absent, or the operating
    flight. *)
Record Codeshare : Type := {
  cs_airline_iata : option string;
  cs_flight_iata : option string
}.

Record FlightIds : Type := {
  iata : option string;
  icao : option string;
  codeshared : option Codeshare
}.

Record RawAirline : Type := {
  ra_name : option string;
  ra_iata : option string;
  ra_icao : option string
}.

Record RawDeparture : Type := {
  rd_airport : option string;
  rd_iata : option string
}.

Record RawAircraft : Type := {
  rc_iata : option string;
  rc_icao : option string
}.

Record RawArrival : Type := {
  rr_scheduled : option string;
  rr_estimated : option string;
  rr_terminal : option string;
  rr_gate : option string;
  rr_delay : option Z
}.

(** One element of [data.data] of the feed. *)
Record RawFlight : Type := {
  flight : option FlightIds;
  flight_status : option string;
  airline : option RawAirline;
  departure : option RawDeparture;
  aircraft : option RawAircraft;
  arrival : option RawArrival
}.

(** One of the three replies of the feed: [None] when the request is
    rejected or the reply carries no [data.data]. *)
Definition Bucket : Type := option (list (option RawFlight)).

(** A reply whose [data.data] holds these flights. *)
Definition present (fs : list RawFlight) : Bucket := Some (Some <$> fs).

(** What a request brings: [event.queryStringParameters.arr_iata],
    [process.env.AVIATIONSTACK_API_KEY] and the replies of the feed to
    the three GETs of lines 32-42. *)
Record Request : Type := {
  arr_iata : option string;
  apiKey : option string;
  scheduled : Bucket;
  active : Bucket;
  landed : Bucket
}.

(** A scope of the file: the parameters it starts with and the names
    its [const] declarations introduce, in source order. *)
Definition Scope : Type := list string * list string.

(** Lines 1-5. *)
Definition module_scope : Scope := ([], ["axios"; "flightCaches"; "CACHE_MS"]).

(** The body of the handler: lines 8, 9, 12, 21, 27 and 28. *)
Definition handler_scope : Scope :=
  (["event"; "context"],
   ["queryParams"; "cacheKey"; "cached"; "apiKey"; "queryParams"; "arrIata"]).

(** The [try] block: lines 32, 44, 51, 52 and 92. *)
Definition try_scope : Scope :=
  ([], ["scheduled"; "active"; "landed"; "allRaw"; "seen"; "flights"; "result"]).

(** The body of the [for] loop: lines 54 and 61. *)
Definition loop_scope : Scope := ([], ["key"; "arrTime"]).

Definition scopes : list Scope := [module_scope; handler_scope; try_scope; loop_scope].

(** The first of [names] that [seen] or an earlier one of [names]
    already declares. *)
Fixpoint redeclared (seen names : list string) : option string :=
  match names with
  | [] => None
  | n :: r => if bool_decide (n ∈ seen) then Some n else redeclared (n :: seen) r
  end.

(** The early error of a source text: the first redeclaration in one
    of its scopes. *)
Fixpoint early_error (ss : list Scope) : option string :=
  match ss with
  | [] => None
  | (params, names) :: r =>
      match redeclared params names with
      | Some n => Some n
      | None => early_error r
      end
  end.

(** What loading a file gives: its exports, or the SyntaxError that
    rejects the text before any statement runs. *)
Inductive loaded (A : Type) : Type :=
| Loaded (exports : A)
| SyntaxError (msg : string).
Arguments Loaded {A} exports.
Arguments SyntaxError {A} msg.

Section Load.

Context {Response : Type}.

(** The function the file assigns to [exports.handler], whatever its
    statements compute. *)
Variable handler : Request -> Response.

Definition load : loaded (Request -> Response) :=
  match early_error scopes with
  | Some n => SyntaxError ("Identifier '" ++ n ++ "' has already been declared")
  | None => Loaded handler
  end.

(** A request to the function: the runtime loads the file and calls
    what it exports. *)
Definition invoke (req : Request) : loaded Response :=
  match load with
  | Loaded h => Loaded (h req)
  | SyntaxError msg => SyntaxError msg
  end.

End Load.

End ArrivalsCdg.

(** ** Sample inputs *)

Module Samples.

Import Arrivals.

Definition dat_line (id name city country iata icao : string) : string :=
  id ++ "," ++ quoted name ++ "," ++ quoted city ++ "," ++ quoted country
     ++ "," ++ quoted iata ++ "," ++ quoted icao ++ ",0,0".

(** Three records in the layout of OpenFlights' airports.dat. *)
Definition airports_dat : string :=
  dat_line "1382" "Charles de Gaulle International Airport" "Paris" "France" "CDG" "LFPG"
  ++ String "010"
  (dat_line "580" "Amsterdam Airport Schiphol" "Amsterdam" "Netherlands" "AMS" "EHAM"
  ++ String "010"
  (dat_line "7" "Narsarsuaq Airport" "Narssarssuaq" "Greenland" "UAK" "BGBW")).


Definition world : World :=
  {| clock := fun t => 1700000000000 + Z.of_nat t;
     local_time := fun t =>
       {| lt_getTime := 1700000000000 + Z.of_nat t; lt_date := "2023-11-14";
          lt_hours := 23; lt_minutes := 13;
          lt_from := "2023-11-14T23:13:20"; lt_to := "2023-11-15T23:13:20";
          lt_iso := "2023-11-14T23:13:20.000Z" |};
     aviationstack := fun _ _ => ApiAirport (Some "Paris") (Some "FR") (Some "Charles de Gaulle");
     openflights := fun _ => Some airports_dat;
     schiphol := fun _ _ _ => NetworkError;
     date_parse := fun _ => None;
     localeCompare := fun _ _ => 0 |}.

Definition schiphol_only : gmap string AirportData :=
  {[ "AMS" := {| city := Some "Amsterdam"; country := Some "NL";
                 name := Some "Schiphol"; source := Some "aviationstack" |} ]}.


(** Budget spent, nothing cached yet. *)
Definition cold_exhausted : State :=
  {| airportCache := ∅; lastCacheUpdate := None; apiCallsCount := 90;
     flightDataCache := []; tick := 0 |}.

(** Budget spent, one airport cached a second ago. *)
Definition warm_exhausted : State :=
  {| airportCache := schiphol_only; lastCacheUpdate := Some 1699999999000;
     apiCallsCount := 90; flightDataCache := []; tick := 0 |}.

(** One primary call left. *)
Definition nearly_exhausted : State :=
  {| airportCache := ∅; lastCacheUpdate := None; apiCallsCount := 89;
     flightDataCache := []; tick := 0 |}.

(** A raw flight of the feed with a flight code and a status. *)
Definition raw (code status : string) (cs : option ArrivalsCdg.Codeshare)
  : ArrivalsCdg.RawFlight :=
  {| ArrivalsCdg.flight :=
       Some {| ArrivalsCdg.iata := Some code; ArrivalsCdg.icao := None;
               ArrivalsCdg.codeshared := cs |};
     ArrivalsCdg.flight_status := Some status;
     ArrivalsCdg.airline := None; ArrivalsCdg.departure := None;
     ArrivalsCdg.aircraft := None;
     ArrivalsCdg.arrival :=
       Some {| ArrivalsCdg.rr_scheduled := Some "2024-03-20T14:30:00+00:00";
               ArrivalsCdg.rr_estimated := None; ArrivalsCdg.rr_terminal := Some "2E";
               ArrivalsCdg.rr_gate := None; ArrivalsCdg.rr_delay := Some 0 |} |}.


Definition kl123_landed := raw "KL123" "landed" None.
Definition kl123_scheduled := raw "KL123" "scheduled" None.

Definition compare_strings (a b : string) : Z :=
  match String.compare a b with
  | Lt => -1
  | Eq => 0
  | Gt => 1
  end.

(** The pair of the landed and the scheduled sighting of KL123. *)
Definition landed_pair : ArrivalsCdg.Request :=
  {| ArrivalsCdg.arr_iata := Some "CDG"; ArrivalsCdg.apiKey := Some "key";
     ArrivalsCdg.scheduled := ArrivalsCdg.present [kl123_scheduled];
     ArrivalsCdg.active := ArrivalsCdg.present [];
     ArrivalsCdg.landed := ArrivalsCdg.present [kl123_landed] |}.



(** Days from 1970-01-01 to a date of the civil calendar. *)
Definition days_from_civil (y m d : Z) : Z :=
  let y' := if m <=? 2 then y - 1 else y in
  let era := y' / 400 in
  let yoe := y' - era * 400 in
  let doy := (153 * (if 2 <? m then m - 3 else m + 9) + 2) / 5 + d - 1 in
  let doe := yoe * 365 + yoe / 4 - yoe / 100 + doy in
  era * 146097 + doe - 719468.

Definition number_at (a b : nat) (s : string) : option Z :=
  JS.digits_prefix 10 None (JS.slice a b s).

(** A date parser for texts of the form YYYY-MM-DDTHH:MM:SS, read as
    UTC. *)
Definition parse_iso (s : string) : option Z :=
  if negb (String.length s =? 19)%nat then None
  else
    y ← number_at 0 4 s; m ← number_at 5 7 s; d ← number_at 8 10 s;
    h ← number_at 11 13 s; mi ← number_at 14 16 s; se ← number_at 17 19 s;
    Some ((((days_from_civil y m d * 24 + h) * 60 + mi) * 60 + se) * 1000).

(** A world whose flights API always announces a further page. *)
Definition endless_page : HttpReply :=
  HttpReplied 200
    (Some [Some {| scheduleDate := Some "2024-03-20"; scheduleTime := Some "11:50:00";
                   destination := Some "Paris (CDG)"; cityInfo := None |}])
    (Some ("</public-flights/flights?page=1>; rel=" ++ JS.quoted "next")).

Definition endless_world : World :=
  {| clock := fun t => 1710936000000 + Z.of_nat t;
     local_time := fun t =>
       {| lt_getTime := 1710936000000; lt_date := "2024-03-20";
          lt_hours := 12; lt_minutes := 0;
          lt_from := "2024-03-20T12:00:00"; lt_to := "2024-03-21T12:00:00";
          lt_iso := "2024-03-20T12:00:00.000Z" |};
     aviationstack := fun _ _ => ApiFailure;
     openflights := fun _ => Some airports_dat;
     schiphol := fun _ _ _ => endless_page;
     date_parse := parse_iso;
     localeCompare := compare_strings |}.

Definition flight_at (d t : string) : Flight :=
  {| scheduleDate := Some d; scheduleTime := Some t;
     destination := Some "Paris (CDG)"; cityInfo := None |}.

(** 2024-03-20T12:00:00Z in epoch milliseconds. *)
Definition noon : Z := 1710936000000.

(** A world whose flights API sends a page with a [null] entry. *)
Definition null_entry_world : World :=
  {| clock := fun t => 1710936000000 + Z.of_nat t;
     local_time := local_time endless_world;
     aviationstack := fun _ _ => ApiFailure;
     openflights := fun _ => None;
     schiphol := fun _ _ _ => HttpReplied 200 (Some [None]) None;
     date_parse := parse_iso;
     localeCompare := compare_strings |}.

Definition credentials : Env :=
  {| SCHIPHOL_APP_ID := Some "id"; SCHIPHOL_APP_KEY := Some "key" |}.

Definition no_credentials : Env :=
  {| SCHIPHOL_APP_ID := None; SCHIPHOL_APP_KEY := None |}.

(** The loop variables before the first evaluation. *)
Definition first_page : Loop :=
  {| allFlights := []; pageCount := 0; totalFlightsSeen := 0;
     currentUrl := Some "https://api.schiphol.nl/public-flights/flights";
     currentParams := Some []; l_hasMore := true; pastFlightPagesCount := 0 |}.

Definition sample_response (fs : list Flight) : Response :=
  {| r_flights := fs;
     timeInfo := {| queryTime := "2024-03-20T12:00:00.000Z";
                    targetDate := Some "2024-03-20";
                    ti_timeWindow := None; windowDetails := None |};
     meta := {| totalFlights := Z.of_nat (length fs); pagesRetrieved := 1;
                hasMorePages := false; cached := false;
                availableTimeWindows := [] |} |}.

(** A cache with one entry written twenty minutes before [noon]. *)
Definition stale_entry : CacheEntry :=
  {| data := sample_response []; timestamp := noon - 20 * 60 * 1000 |}.

Definition with_stale_entry : State :=
  {| airportCache := ∅; lastCacheUpdate := None; apiCallsCount := 0;
     flightDataCache := [("2024-03-20_all", stale_entry)]; tick := 0 |}.

End Samples.

(** ** Shapes of inputs *)

Module Text.

(** The character occurs in the string. *)
Fixpoint occurs (c : ascii) (s : string) : bool :=
  match s with
  | EmptyString => false
  | String a r => Ascii.eqb a c || occurs c r
  end.

(** A link entry of the form [<u>; rel="next"]. *)
Definition next_entry (u : string) : string :=
  String "<" (u ++ ">; " ++ Arrivals.rel_next).

(** What [getNextPageUrl] makes of the URL between the angle
    brackets. *)
Definition qualified (u : string) : string :=
  if includes "protocol://" u then
    replace_first "protocol://server_address:port" "https://api.schiphol.nl" u
  else if startsWith "/" u then "https://api.schiphol.nl" ++ u
  else u.

(** The callback of the [forEach] of [validateAndCleanParams]. *)
Definition clean_step (acc : Arrivals.Params) (kv : string * string) : Arrivals.Params :=
  if bool_decide (fst kv ∈ Arrivals.validParams)
  then Arrivals.set_prop (fst kv) (Json.JStr (snd kv)) acc else acc.

(** The flight counts as future at [now]. *)
Definition future (w : Arrivals.World) (now : Z) (f : Arrivals.Flight) : bool :=
  match Arrivals.isFlightInFuture w (Some f) now with
  | Normal true => true
  | _ => false
  end.

(** The flights accumulated by the paginate loop are future flights,
    and no more than the flights seen. *)
Definition accumulated (w : Arrivals.World) (nlTime : Z) (l : Arrivals.Loop) : Prop :=
  Forall (fun f => Arrivals.isFlightInFuture w (Some f) nlTime = Normal true)
         (Arrivals.allFlights l)
  /\ Z.of_nat (length (Arrivals.allFlights l)) <= Arrivals.totalFlightsSeen l.

(** [f'] is [f] with, at most, its [cityInfo] replaced by the cached
    metadata of the code its destination names. *)
Definition annotated (cache : gmap string Arrivals.AirportData)
           (f f' : Arrivals.Flight) : Prop :=
  Arrivals.scheduleDate f' = Arrivals.scheduleDate f
  /\ Arrivals.scheduleTime f' = Arrivals.scheduleTime f
  /\ Arrivals.destination f' = Arrivals.destination f
  /\ (f' = f
      \/ exists code d flag,
           Arrivals.flight_code f = Some code
           /\ cache !! code = Some d
           /\ Arrivals.getFlagEmoji (Arrivals.country d) = Normal flag
           /\ Arrivals.cityInfo f'
              = Some {| Arrivals.ci_city := Arrivals.city d;
                        Arrivals.ci_country := Arrivals.country d;
                        Arrivals.ci_flag := flag;
                        Arrivals.ci_airportName := Arrivals.name d;
                        Arrivals.ci_source := Arrivals.source d |}).

(** Three capital letters. *)
Definition iata_shaped (c : string) : Prop :=
  exists x y z, c = String x (String y (String z ""))
                /\ Arrivals.is_upper x = true /\ Arrivals.is_upper y = true
                /\ Arrivals.is_upper z = true.

End Text.

(** * Properties *)

Section ResolverFacts.

Import Arrivals.
Variable w : World.

Ltac run_m :=
  unfold fetchAirportData, fetchOpenFlightsData, cache_empty_or_expired,
    cached_fresh, cache_get, Date_now, effect, get_state, set_airportCache,
    set_lastCacheUpdate, set_apiCallsCount, mbind, M_bind, mret, M_ret;
  simpl.

Lemma fetchOpenFlightsData_count s :
  apiCallsCount (snd (fetchOpenFlightsData w s)) = apiCallsCount s.
Proof. run_m. repeat case_match; simplify_eq/=; done. Qed.

Lemma fetchAirportData_count code s :
  apiCallsCount s <= MAX_API_CALLS ->
  apiCallsCount (snd (fetchAirportData w code s)) <= MAX_API_CALLS.
Proof.
  intros Hle. run_m.
  repeat (case_match; simplify_eq/=); try lia.
Qed.

Lemma for_each_invariant {A} (P : State -> Prop) (f : A -> M unit) l :
  (forall a s, P s -> P (snd (f a s))) ->
  forall s, P s -> P (snd (for_each f l s)).
Proof.
  intros Hf. induction l as [|a l IH]; intros s Hs; simpl; [done|].
  unfold mbind, M_bind. specialize (Hf a s Hs).
  destruct (f a s) as [[] s1]. by apply IH.
Qed.

(** C7. Running [batchFetchAirportData] on any list of codes keeps
    [apiCallsCount] at or below [MAX_API_CALLS] (90): the invariant
    holds after the call whenever it held before it, however many of
    the codes are uncached. *)
Theorem batchFetchAirportData_budget (iataCodes : list string) (s : State) :
  apiCallsCount s <= MAX_API_CALLS ->
  apiCallsCount (snd (batchFetchAirportData w iataCodes s)) <= MAX_API_CALLS.
Proof.
  intros Hle. unfold batchFetchAirportData, get_state, mbind, M_bind.
  destruct (length _ =? 0)%nat; [done|].
  destruct (MAX_API_CALLS <? _).
  - by rewrite fetchOpenFlightsData_count.
  - apply (for_each_invariant (fun s => apiCallsCount s <= MAX_API_CALLS)); [|done].
    intros code s1 Hs1. pose proof (fetchAirportData_count code s1 Hs1) as H.
    unfold mbind, M_bind. by destruct (fetchAirportData w code s1).
Qed.

Lemma store_airports_lookup (l : list Airport) (c : gmap string AirportData) code :
  is_Some (c !! code) \/ In code (map a_iata l) ->
  is_Some (store_airports l c !! code).
Proof.
  unfold store_airports. revert c.
  induction l as [|a l IH]; intros c [Hc|Hin]; simpl in *; try done.
  - apply IH. left. destruct (decide (a_iata a = code)) as [->|Hne].
    + rewrite lookup_insert_eq. eauto.
    + by rewrite lookup_insert_ne.
  - destruct Hin as [<-|Hin].
    + apply IH. left. rewrite lookup_insert_eq. eauto.
    + apply IH. by right.
Qed.


Lemma cached_fresh_hit code s d :
  fst (cached_fresh w code s) = Some d -> airportCache s !! code = Some d.
Proof. run_m. repeat case_match; simplify_eq/=; done. Qed.

(** The bulk load never forgets a code. *)
Lemma fetchOpenFlightsData_keeps code s :
  is_Some (airportCache s !! code) ->
  is_Some (airportCache (snd (fetchOpenFlightsData w s)) !! code).
Proof.
  intros Hc. run_m.
  repeat case_match; simplify_eq/=; try done;
    apply store_airports_lookup; by left.
Qed.




End ResolverFacts.

Lemma batchFetchAirportData_budget_witness :
  Arrivals.apiCallsCount Samples.nearly_exhausted <= Arrivals.MAX_API_CALLS
  /\ Arrivals.apiCallsCount
       (snd (Arrivals.batchFetchAirportData Samples.world ["CDG"] Samples.nearly_exhausted))
     <= Arrivals.MAX_API_CALLS.
Proof.
  assert (Arrivals.apiCallsCount Samples.nearly_exhausted <= Arrivals.MAX_API_CALLS) as H
    by (unfold Arrivals.MAX_API_CALLS; simpl; lia).
  split; [exact H|]. apply batchFetchAirportData_budget. exact H.
Defined.

Example batchFetchAirportData_spends_last_call :
  Arrivals.apiCallsCount
    (snd (Arrivals.batchFetchAirportData Samples.world ["CDG"] Samples.nearly_exhausted)) = 90.
Proof. vm_compute. reflexivity. Qed.



(** ** The multi-status file *)

Section MultiStatus.

Import ArrivalsCdg.
Context {Response : Type}.
Variable handler : Request -> Response.

(** The body of the handler is the one scope with a redeclaration. *)
Lemma early_error_scopes :
  early_error [module_scope; try_scope; loop_scope] = None
  /\ early_error scopes = Some "queryParams".
Proof. split; reflexivity. Qed.

Lemma invoke_rejected req :
  invoke handler req = SyntaxError "Identifier 'queryParams' has already been declared".
Proof.
  unfold invoke, load. destruct early_error_scopes as [_ ->]. reflexivity.
Qed.

(** C4. On the pair of KL123 seen as landed and as scheduled, the
    request ends in the SyntaxError of the load: no merged list is
    built, whatever the statements of the handler. *)
Theorem landed_pair_rejected :
  invoke handler Samples.landed_pair
  = SyntaxError "Identifier 'queryParams' has already been declared".
Proof. apply invoke_rejected. Qed.



(** X26. No request to the multi-status function is answered:
    whatever it asks for and whatever the feed would reply, and
    whatever the statements of the handler compute, it ends in the
    SyntaxError of the load. *)
Theorem no_request_answered (req : Request) :
  load handler = SyntaxError "Identifier 'queryParams' has already been declared"
  /\ forall r, invoke handler req <> Loaded r.
Proof.
  split.
  - unfold load. destruct early_error_scopes as [_ ->]. reflexivity.
  - intros r. by rewrite invoke_rejected.
Qed.

End MultiStatus.

(** ** Flag emoji *)

Section FlagFacts.

Import Arrivals.

Lemma code_of_range c : 0 <= code_of c < 256.
Proof.
  unfold code_of. pose proof (nat_ascii_bounded c). lia.
Qed.

Lemma regional_indicator c :
  fromCodePoint (Some (127462 + code_of c - 65)) = Normal [127462 + code_of c - 65].
Proof.
  unfold fromCodePoint. pose proof (code_of_range c).
  destruct (0 <=? _) eqn:H0; [|apply Z.leb_gt in H0; lia].
  destruct (_ <=? 1114111) eqn:H1; [done|apply Z.leb_gt in H1; lia].
Qed.

(** C3 (amended). [getFlagEmoji("NL")] is the two regional indicators
    N and L; an absent or empty country code gives the empty string;
    a code of two or more ASCII characters gives the two code points
    0x1F1E6 + (upper-cased character - 65) of its first two
    characters, whether or not it is an ISO-2 code. *)
Theorem getFlagEmoji_spec :
  getFlagEmoji (Some "NL") = Normal [127462 + 13; 127462 + 11]
  /\ getFlagEmoji None = Normal []
  /\ getFlagEmoji (Some "") = Normal []
  /\ forall (a b : ascii) (rest : string),
       (nat_of_ascii a < 128)%nat -> (nat_of_ascii b < 128)%nat ->
       getFlagEmoji (Some (String a (String b rest)))
       = Normal [127462 + code_of (upper_char a) - 65;
                 127462 + code_of (upper_char b) - 65].
Proof.
  split; [reflexivity|]. split; [reflexivity|]. split; [reflexivity|].
  intros a b rest _ _. unfold getFlagEmoji.
  cbn [truthy negb or_empty toUpperCase charCodeAt String.get fmap option_fmap
       option_map cbind].
  rewrite !regional_indicator. reflexivity.
Qed.

End FlagFacts.

Lemma getFlagEmoji_spec_witness :
  Arrivals.getFlagEmoji (Some "nl") = Normal [127475; 127473].
Proof.
  destruct getFlagEmoji_spec as (_ & _ & _ & Hgeneral).
  apply (Hgeneral "n"%char "l"%char ""); vm_compute; lia.
Defined.

(** C3 as stated fails: on a one-character country code the second
    [charCodeAt] is NaN and [String.fromCodePoint] throws, and a code
    that names no country still gives a non-empty string. *)
Lemma getFlagEmoji_invalid_counterexample :
  Arrivals.getFlagEmoji (Some "N") = Throw (RangeError "Invalid code point NaN")
  /\ Arrivals.getFlagEmoji (Some "12") = Normal [127446; 127447].
Proof. split; reflexivity. Qed.

(** ** Future flights *)

Section FutureFacts.

Import Arrivals.
Variable w : World.

(** C9. For a flight whose [scheduleDate] and [scheduleTime] parse
    to the instant [ms], [isFlightInFuture(flight, now)] is true
    exactly when [ms] is at or after [now] minus 15 minutes: true for
    a flight scheduled 10 minutes before [now], false for one
    scheduled 20 minutes before it. *)
Theorem isFlightInFuture_grace (f : Flight) (d t : string) (ms now : Z) :
  scheduleDate f = Some d -> d <> "" ->
  scheduleTime f = Some t -> t <> "" ->
  date_parse w (d ++ "T" ++ t) = Some ms ->
  (isFlightInFuture w (Some f) now = Normal true <-> now - 15 * 60 * 1000 <= ms)
  /\ (isFlightInFuture w (Some f) now = Normal false <-> ms < now - 15 * 60 * 1000)
  /\ (ms = now - 10 * 60 * 1000 -> isFlightInFuture w (Some f) now = Normal true)
  /\ (ms = now - 20 * 60 * 1000 -> isFlightInFuture w (Some f) now = Normal false).
Proof.
  intros Hd Hdne Ht Htne Hparse.
  assert (isFlightInFuture w (Some f) now = Normal (now - 15 * 60 * 1000 <=? ms)) as ->.
  { unfold isFlightInFuture. rewrite Hd, Ht.
    destruct d as [|c1 d']; [done|]. destruct t as [|c2 t']; [done|].
    simpl truthy. simpl negb. simpl orb. cbv iota.
    unfold or_empty. by rewrite Hparse. }
  destruct (Z.leb_spec (now - 15 * 60 * 1000) ms) as [Hle|Hlt].
  - repeat split; intros; try done; try lia.
  - repeat split; intros; try done; try lia.
Qed.

End FutureFacts.

Lemma isFlightInFuture_grace_witness :
  Arrivals.date_parse Samples.endless_world "2024-03-20T11:50:00"
  = Some (Samples.noon - 10 * 60 * 1000)
  /\ Arrivals.isFlightInFuture Samples.endless_world
       (Some (Samples.flight_at "2024-03-20" "11:50:00")) Samples.noon = Normal true.
Proof.
  split; [vm_compute; reflexivity|].
  apply (isFlightInFuture_grace Samples.endless_world
           (Samples.flight_at "2024-03-20" "11:50:00") "2024-03-20" "11:50:00"
           (Samples.noon - 10 * 60 * 1000) Samples.noon);
    try reflexivity; try discriminate.
Defined.

Example isFlightInFuture_twenty_minutes_late :
  Arrivals.isFlightInFuture Samples.endless_world
    (Some (Samples.flight_at "2024-03-20" "11:40:00")) Samples.noon = Normal false.
Proof. vm_compute. reflexivity. Qed.


(** ** The paginate loop *)

Section PaginateFacts.

Import Arrivals.
Variable w : World.

Lemma fetchPage_tick url params s :
  tick (snd (fetchPage w url params s)) = S (tick s).
Proof.
  unfold fetchPage, effect, mbind, M_bind, mret, M_ret. simpl.
  repeat case_match; simplify_eq/=; done.
Qed.

(** One evaluation of the loop fetches at most one page, only while
    the page budget is not used up, and goes on only with a larger
    page count that still leaves a page in the budget. *)
Lemma iteration_cases maxPages nlTime l s :
  match iteration w maxPages nlTime l s with
  | (Continue l', s') =>
      tick s' = S (tick s) /\ pageCount l' = pageCount l + 1
      /\ pageCount l < maxPages - 1
  | (_, s') =>
      tick s' = tick s \/ (tick s' = S (tick s) /\ pageCount l < maxPages)
  end.
Proof.
  unfold iteration.
  destruct (l_hasMore l && (pageCount l <? maxPages)) eqn:Hcond; simpl.
  { apply andb_true_iff in Hcond as [_ Hlt%Z.ltb_lt].
    unfold mbind, M_bind.
    pose proof (fetchPage_tick (currentUrl l)
                  (if pageCount l =? 0 then currentParams l else None) s) as Ht.
    destruct (fetchPage w _ _ s) as [page s1]. simpl in Ht.
    unfold mret, M_ret.
    repeat (case_match; simplify_eq/=); try (right; split; [done|lia]).
    all: split; [done|]; split; [done|].
    all: match goal with H : (_ <=? _) = false |- _ => apply Z.leb_gt in H; lia end. }
  unfold mret, M_ret. by left.
Qed.

Lemma paginate_bounded maxPages nlTime fuel :
  forall l s,
    (Z.to_nat (maxPages - pageCount l) < fuel)%nat ->
    exists r s',
      paginate w fuel maxPages nlTime l s = (Some r, s')
      /\ (tick s <= tick s')%nat
      /\ (tick s' <= tick s + Z.to_nat (maxPages - pageCount l))%nat.
Proof.
  induction fuel as [|n IH]; intros l s Hfuel; [lia|].
  simpl. unfold mbind, M_bind.
  pose proof (iteration_cases maxPages nlTime l s) as Hit.
  destruct (iteration w maxPages nlTime l s) as [[l'|l'|e] s1].
  - exists (Normal l'), s1. split; [done|]. lia.
  - destruct Hit as (Ht & Hpc & Hlt).
    destruct (IH l' s1) as (r & s' & Hrun & Hlo & Hhi); [lia|].
    exists r, s'. split; [done|]. lia.
  - exists (Throw e), s1. split; [done|]. lia.
Qed.

(** The handler always answers. *)
Lemma handler_answers env queryParams s :
  is_Some (fst (handler w env queryParams s)).
Proof.
  unfold handler.
  destruct (negb _ || negb _); [by eexists|].
  unfold mbind, M_bind.
  destruct (effect (local_time w) s) as [nl s1].
  destruct (cache_lookup w _ s1) as [[c|] s2].
  { destruct (Date_now w s2) as [n1 s3]. destruct (Date_now w s3) as [n2 s4]. by eexists. }
  match goal with |- context [paginate w ?f ?m ?t ?l s2] =>
    destruct (paginate_bounded m t f l s2) as (r & s' & Hrun & _);
      [simpl; rewrite Z.sub_0_r; lia|rewrite Hrun]
  end.
  destruct r as [l|e]; [|by eexists].
  destruct (respond w _ _ _ _ _ s') as [[r|e] s3]; by eexists.
Qed.

(** C5. Whatever the flights API answers, also when every page
    announces a further page, the paginate loop started at page count 0
    ends (more evaluations than [maxPages] are never needed) and has
    fetched at most [maxPages] pages: the tick advances once per
    fetch. *)
Theorem paginate_within_budget (maxPages nlTime : Z) (l : Loop) (s : State) (fuel : nat) :
  pageCount l = 0 ->
  (Z.to_nat maxPages < fuel)%nat ->
  exists r s',
    paginate w fuel maxPages nlTime l s = (Some r, s')
    /\ Z.of_nat (tick s' - tick s) <= Z.max 0 maxPages.
Proof.
  intros Hpc Hfuel.
  destruct (paginate_bounded maxPages nlTime fuel l s) as (r & s' & Hrun & Hlo & Hhi).
  { rewrite Hpc, Z.sub_0_r. done. }
  exists r, s'. split; [done|]. rewrite Hpc, Z.sub_0_r in Hhi. lia.
Qed.

End PaginateFacts.

Example endless_three_pages :
  let run :=
    Arrivals.paginate Samples.endless_world 4 3 Samples.noon Samples.first_page
                      Samples.cold_exhausted in
  Arrivals.tick (snd run) = 3%nat
  /\ match fst run with
     | Some (Normal l) =>
         Arrivals.l_hasMore l = true /\ Arrivals.pageCount l = 2
         /\ length (Arrivals.allFlights l) = 3%nat
         /\ Arrivals.currentUrl l
            = Some "https://api.schiphol.nl/public-flights/flights?page=1"
     | _ => False
     end.
Proof. vm_compute. auto. Qed.

Lemma paginate_within_budget_witness :
  Arrivals.pageCount Samples.first_page = 0
  /\ exists r s',
    Arrivals.paginate Samples.endless_world 4 3 Samples.noon Samples.first_page
                      Samples.cold_exhausted = (Some r, s')
    /\ Z.of_nat (Arrivals.tick s' - Arrivals.tick Samples.cold_exhausted) <= Z.max 0 3.
Proof.
  split; [reflexivity|].
  apply (paginate_within_budget Samples.endless_world 3 Samples.noon Samples.first_page
           Samples.cold_exhausted 4).
  - reflexivity.
  - simpl. lia.
Defined.

(** ** The response cache *)

Section CacheFacts.

Import Arrivals.
Variable w : World.

Lemma isFlightCacheValid_reads e s :
  isFlightCacheValid w (Some e) s
  = if timestamp e =? 0 then (false, s)
    else (clock w (tick s) - timestamp e <? FLIGHT_CACHE_DURATION,
          snd (Date_now w s)).
Proof. unfold isFlightCacheValid. by destruct (timestamp e =? 0). Qed.

Lemma isFlightCacheValid_tick e s :
  (tick s <= tick (snd (isFlightCacheValid w (Some e) s)))%nat.
Proof.
  rewrite isFlightCacheValid_reads. destruct (timestamp e =? 0); simpl; lia.
Qed.

Lemma sweep_cons k e r s :
  sweep w ((k, e) :: r) s
  = let '(valid, s1) := isFlightCacheValid w (Some e) s in
    let '(kept, s2) := sweep w r s1 in
    (if valid then (k, e) :: kept else kept, s2).
Proof. reflexivity. Qed.

Lemma sweep_tick entries s : (tick s <= tick (snd (sweep w entries s)))%nat.
Proof.
  revert s. induction entries as [|[k e] r IH]; intros s; [done|].
  rewrite sweep_cons.
  pose proof (isFlightCacheValid_tick e s) as H1.
  destruct (isFlightCacheValid w (Some e) s) as [v s1].
  specialize (IH s1). destruct (sweep w r s1) as [kept s2]. simpl in *. lia.
Qed.

(** An entry that is valid at every reading of the sweep survives it
    under its key. *)
Lemma sweep_keeps entries k e s :
  map_get k entries = Some e ->
  timestamp e <> 0 ->
  (forall t, (tick s <= t < tick (snd (sweep w entries s)))%nat ->
             clock w t - timestamp e < FLIGHT_CACHE_DURATION) ->
  map_get k (fst (sweep w entries s)) = Some e.
Proof.
  unfold map_get. intros Hget Hts. revert s Hget.
  induction entries as [|[k' e'] r IH]; intros s Hget Hwin; [done|].
  rewrite sweep_cons in *. simpl in Hget.
  rewrite isFlightCacheValid_reads in *.
  destruct (String.eqb k k') eqn:Hk.
  - injection Hget as ->.
    apply Z.eqb_neq in Hts. rewrite Hts in *. simpl in *.
    pose proof (sweep_tick r (snd (Date_now w s))) as Hr.
    destruct (sweep w r _) as [kept s2]. simpl in *.
    assert (clock w (tick s) - timestamp e < FLIGHT_CACHE_DURATION) as Hv
      by (apply Hwin; lia).
    apply Z.ltb_lt in Hv. rewrite Hv. simpl. by rewrite Hk.
  - destruct (timestamp e' =? 0); simpl in *.
    + specialize (IH s Hget). destruct (sweep w r s) as [kept s2]. simpl in *.
      by apply IH.
    + specialize (IH (snd (Date_now w s)) Hget).
      destruct (sweep w r _) as [kept s2]. simpl in *.
      destruct (_ <? _); simpl; rewrite ?Hk; apply IH; intros t Ht; apply Hwin; lia.
Qed.

(** Whatever survives the sweep was valid at one of its readings. *)
Lemma sweep_valid entries k e s :
  (k, e) ∈ fst (sweep w entries s) ->
  exists t, (tick s <= t)%nat /\ clock w t - timestamp e < FLIGHT_CACHE_DURATION.
Proof.
  revert s. induction entries as [|[k' e'] r IH]; intros s Hin.
  { by apply elem_of_nil in Hin. }
  rewrite sweep_cons in Hin.
  rewrite isFlightCacheValid_reads in *.
  destruct (timestamp e' =? 0); simpl in *.
  - specialize (IH s). destruct (sweep w r s) as [kept s2]. simpl in *. by apply IH.
  - specialize (IH (snd (Date_now w s))).
    destruct (sweep w r _) as [kept s2]. simpl in *.
    destruct (_ <? _) eqn:Hv; simpl in *.
    + apply elem_of_cons in Hin as [Heq|Hin].
      * injection Heq as -> ->. exists (tick s). split; [done|]. by apply Z.ltb_lt.
      * destruct (IH Hin) as (t & Ht & Hc). exists t. split; [lia|done].
    + destruct (IH Hin) as (t & Ht & Hc). exists t. split; [lia|done].
Qed.

Lemma map_get_set k e c : map_get k (map_set k e c) = Some e.
Proof.
  unfold map_get, map_set. induction c as [|[k' e'] r IH]; simpl.
  - by rewrite String.eqb_refl.
  - destruct (String.eqb k k') eqn:Hk; simpl; [by rewrite String.eqb_refl|].
    by rewrite Hk.
Qed.

(** C6. [set(key, data)] followed by [get(key)], every clock reading
    from the write to the read being less than 15 minutes after the
    written timestamp, returns the stored data unchanged; and for an
    entry whose 15 minutes have elapsed, [isFlightCacheValid] is false
    and the entry is gone after the next write and its sweep. *)
Theorem flight_cache_round_trip (key : string) (payload : Response) (s : State) :
  (clock w (tick s) <> 0 ->
   (forall t, (tick s <= t <= tick (snd (cache_store w key payload s)))%nat ->
              clock w t - clock w (tick s) < FLIGHT_CACHE_DURATION) ->
   data <$> fst (cache_lookup w key (snd (cache_store w key payload s))) = Some payload)
  /\ (forall e,
        (key, e) ∈ flightDataCache s ->
        (forall t, (tick s <= t)%nat ->
                   FLIGHT_CACHE_DURATION <= clock w t - timestamp e) ->
        fst (isFlightCacheValid w (Some e) s) = false
        /\ forall key' payload',
             (key, e) ∉ flightDataCache (snd (cache_store w key' payload' s))).
Proof.
  split.
  - intros Hnow Hwin.
    set (e := {| data := payload; timestamp := clock w (tick s) |}).
    unfold cache_store in *. unfold mbind, M_bind, Date_now, effect, get_state,
      set_flightDataCache in *. simpl in *.
    match goal with |- context [sweep w ?c ?s1] =>
      pose proof (sweep_keeps c key e s1 (map_get_set key e _) Hnow) as Hkeep;
      pose proof (sweep_tick c s1) as Hmono;
      destruct (sweep w c s1) as [kept s2] eqn:Hsw
    end.
    simpl in *.
    unfold cache_lookup, mbind, M_bind, get_state. simpl.
    rewrite Hkeep by (intros t Ht; apply Hwin; lia).
    rewrite isFlightCacheValid_reads. simpl.
    apply Z.eqb_neq in Hnow. rewrite Hnow. simpl.
    assert (clock w (tick s2) - clock w (tick s) < FLIGHT_CACHE_DURATION) as Hv
      by (apply Hwin; lia).
    apply Z.ltb_lt in Hv. by rewrite Hv.
  - intros e Hin Hold. split.
    + rewrite isFlightCacheValid_reads.
      destruct (timestamp e =? 0); [done|]. simpl.
      apply Z.ltb_ge. apply Hold. done.
    + intros key' payload' Hstill.
      unfold cache_store in Hstill. unfold mbind, M_bind, Date_now, effect, get_state,
        set_flightDataCache in Hstill. simpl in Hstill.
      match type of Hstill with context [sweep w ?c ?s1] =>
        pose proof (sweep_valid c key e s1) as Hval;
        destruct (sweep w c s1) as [kept s2]
      end.
      simpl in *. destruct (Hval Hstill) as (t & Ht & Hc).
      specialize (Hold t). lia.
Qed.

End CacheFacts.


Lemma flight_cache_round_trip_witness :
  Arrivals.data
    <$> fst (Arrivals.cache_lookup Samples.endless_world "2024-03-20_current"
               (snd (Arrivals.cache_store Samples.endless_world "2024-03-20_current"
                       (Samples.sample_response []) Samples.with_stale_entry)))
  = Some (Samples.sample_response [])
  /\ fst (Arrivals.isFlightCacheValid Samples.endless_world (Some Samples.stale_entry)
                                      Samples.with_stale_entry) = false
  /\ ("2024-03-20_all", Samples.stale_entry)
     ∉ Arrivals.flightDataCache
         (snd (Arrivals.cache_store Samples.endless_world "2024-03-20_current"
                 (Samples.sample_response []) Samples.with_stale_entry)).
Proof.
  destruct (flight_cache_round_trip Samples.endless_world "2024-03-20_current"
              (Samples.sample_response []) Samples.with_stale_entry) as [Hfresh _].
  destruct (flight_cache_round_trip Samples.endless_world "2024-03-20_all"
              (Samples.sample_response []) Samples.with_stale_entry) as [_ Hstale].
  split.
  - apply Hfresh.
    + vm_compute. discriminate.
    + intros t Ht.
      assert (Arrivals.tick
                (snd (Arrivals.cache_store Samples.endless_world "2024-03-20_current"
                        (Samples.sample_response []) Samples.with_stale_entry)) = 3%nat)
        as Htick by (vm_compute; reflexivity).
      rewrite Htick in Ht.
      unfold Samples.endless_world, Arrivals.clock, Samples.with_stale_entry,
        Arrivals.tick, Arrivals.FLIGHT_CACHE_DURATION. lia.
  - destruct (Hstale Samples.stale_entry) as [Hinvalid Hgone].
    + left.
    + intros t _.
      unfold Samples.endless_world, Arrivals.clock, Samples.stale_entry,
        Arrivals.timestamp, Samples.noon, Arrivals.FLIGHT_CACHE_DURATION. lia.
    + split; [exact Hinvalid|apply Hgone].
Defined.

Example stale_entry_swept :
  Arrivals.flightDataCache
    (snd (Arrivals.cache_store Samples.endless_world "2024-03-20_current"
            (Samples.sample_response []) Samples.with_stale_entry))
  = [("2024-03-20_current",
      {| Arrivals.data := Samples.sample_response [];
         Arrivals.timestamp := Samples.noon |})].
Proof. vm_compute. reflexivity. Qed.

(** ** Error bodies *)

Section JsonFacts.

Import Json.

#[local] Arguments String.append !s1 s2 : simpl nomatch.

Lemma append_assoc (a b c : string) : (a ++ b) ++ c = a ++ (b ++ c).
Proof. induction a as [|x a IH]; simpl; [done|]. by rewrite IH. Qed.

Lemma length_append (a b : string) :
  String.length (a ++ b) = (String.length a + String.length b)%nat.
Proof. induction a as [|x a IH]; simpl; [done|]. by rewrite IH. Qed.

(** Reading back one escaped character. *)
Lemma read_chars_escape_char c tail :
  read_chars (escape_char c ++ tail)
  = match read_chars tail with
    | Some (t, rest) => Some (String c t, rest)
    | None => None
    end.
Proof.
  destruct c as [[] [] [] [] [] [] [] []]; reflexivity.
Qed.

(** Round trip of a quoted string: the reader returns the characters
    [JSON.stringify] escaped. *)
Lemma read_chars_escape s rest :
  read_chars (escape s ++ String "034" rest) = Some (s, rest).
Proof.
  induction s as [|c s IH]; simpl; [done|].
  by rewrite append_assoc, read_chars_escape_char, IH.
Qed.

Lemma read_value_quote f X :
  read_value (S f) (String "034" X)
  = match read_chars X with
    | Some (t, rest) => Some (JStr t, rest)
    | None => None
    end.
Proof. reflexivity. Qed.

Lemma read_value_empty_array f rest :
  read_value (S f) (String "[" (String "]" rest)) = Some (JArr [], rest).
Proof. reflexivity. Qed.

Lemma read_value_brace f X :
  read_value (S f) (String "{" (String "034" X))
  = match read_members f (String "034" X) with
    | Some (l, rest) => Some (JObj l, rest)
    | None => None
    end.
Proof. reflexivity. Qed.

Lemma read_members_quote f X :
  read_members (S f) (String "034" X)
  = match read_chars X with
    | Some (k, r1) =>
        match skip_ws r1 with
        | String ":" r2 =>
            match read_value f r2 with
            | Some (v, r3) =>
                match skip_ws r3 with
                | String "," r' =>
                    match read_members f r' with
                    | Some (l, rest) => Some ((k, v) :: l, rest)
                    | None => None
                    end
                | String "}" rest => Some ([(k, v)], rest)
                | _ => None
                end
            | None => None
            end
        | _ => None
        end
    | None => None
    end.
Proof. reflexivity. Qed.

Lemma read_flat_value v f rest :
  flat v -> read_value (S f) (stringify v ++ rest) = Some (v, rest).
Proof.
  destruct v as [| | |s|[|x l]|]; intros Hflat; try (by destruct Hflat).
  change (stringify (JStr s)) with (quote s). unfold quote.
  change (String "034" (escape s ++ String "034" "") ++ rest)
    with (String "034" ((escape s ++ String "034" "") ++ rest)).
  rewrite read_value_quote, append_assoc.
  change (String "034" "" ++ rest) with (String "034" rest).
  by rewrite read_chars_escape.
Qed.

Lemma member_text_quote k v tail :
  member_text (k, v) ++ tail
  = String "034" (escape k ++ String "034" (String ":" (stringify v ++ tail))).
Proof.
  unfold member_text, quote. simpl. by rewrite !append_assoc.
Qed.

(** Round trip of the properties of an object with flat values. *)
Lemma read_members_flat fields :
  fields <> [] ->
  Forall (fun kv => flat (snd kv)) fields ->
  forall f rest,
    (length fields <= f)%nat ->
    read_members (S f) (join "," (map member_text fields) ++ String "}" rest)
    = Some (fields, rest).
Proof.
  induction fields as [|[k v] r IH]; [done|]. intros _ Hflat f rest Hf.
  apply Forall_cons in Hflat as [Hv Hr]. simpl in Hv.
  destruct f as [|f]; [simpl in Hf; lia|].
  destruct r as [|kv2 r].
  - simpl join. rewrite member_text_quote, read_members_quote, read_chars_escape.
    simpl skip_ws. cbv beta iota. rewrite read_flat_value by done. reflexivity.
  - change (join "," (map member_text ((k, v) :: kv2 :: r)))
      with (member_text (k, v) ++ "," ++ join "," (map member_text (kv2 :: r))).
    rewrite !append_assoc, member_text_quote, read_members_quote, read_chars_escape.
    simpl skip_ws. cbv beta iota. rewrite read_flat_value by done.
    simpl skip_ws. cbv beta iota.
    rewrite IH; [done|done|done|]. simpl in *. lia.
Qed.

Lemma join_length ms :
  Forall (fun m => (1 <= String.length m)%nat) ms ->
  (length ms <= String.length (join "," ms))%nat.
Proof.
  induction 1 as [|m ms Hm _ IH]; [done|].
  destruct ms as [|m2 ms]; [simpl; lia|].
  change (join "," (m :: m2 :: ms)) with (m ++ "," ++ join "," (m2 :: ms)).
  rewrite !length_append. change (String.length ",") with 1%nat.
  change (length (m :: m2 :: ms)) with (S (length (m2 :: ms))). lia.
Qed.

(** [JSON.parse] undoes [JSON.stringify] on an object whose values are
    strings and empty arrays. *)
Lemma parse_stringify_flat fields :
  fields <> [] ->
  Forall (fun kv => flat (snd kv)) fields ->
  parse (stringify (JObj fields)) = Some (JObj fields).
Proof.
  intros Hne Hflat. unfold parse.
  change (stringify (JObj fields))
    with (String "{" (join "," (map member_text fields) ++ "}")).
  assert (length fields <= String.length (join "," (map member_text fields) ++ "}"))%nat
    as Hlen.
  { rewrite length_append. etrans; [|apply Nat.le_add_r].
    etrans; [|apply join_length].
    - by rewrite length_map.
    - apply List.Forall_map, Forall_true. intros [k v].
      unfold member_text, quote. simpl. lia. }
  pose proof (read_members_flat fields Hne Hflat _ "" Hlen) as Hread.
  simpl String.length.
  destruct fields as [|[k v] r]; [done|].
  destruct r as [|kv2 r].
  - simpl join in *. rewrite member_text_quote in *.
    rewrite read_value_brace, Hread. reflexivity.
  - change (join "," (map member_text ((k, v) :: kv2 :: r)))
      with (member_text (k, v) ++ "," ++ join "," (map member_text (kv2 :: r))) in *.
    rewrite !append_assoc, member_text_quote in *.
    rewrite read_value_brace, Hread. reflexivity.
Qed.

End JsonFacts.


(** ** Failure responses *)

Section FailureFacts.

Import Json.

Lemma respond_status w nl timeWindow apiParams cacheKey l s r :
  fst (Arrivals.respond w nl timeWindow apiParams cacheKey l s) = Normal r ->
  Arrivals.statusCode r = 200.
Proof.
  unfold Arrivals.respond, mbind, Arrivals.M_bind, mret, Arrivals.M_ret.
  destruct (Arrivals.processFlightData w _ s) as [[fs|e] s1]; [|done].
  destruct (Arrivals.cache_store w _ _ s1) as [[] s2]. simpl.
  by intros [= <-].
Qed.

(** The Schiphol handler answers 500 on two paths only. *)
Lemma handler_500 w env queryParams s r :
  fst (Arrivals.handler w env queryParams s) = Some r ->
  Arrivals.statusCode r = 500 ->
  (truthy (Arrivals.SCHIPHOL_APP_ID env) && truthy (Arrivals.SCHIPHOL_APP_KEY env) = false
   /\ r = Arrivals.config_error)
  \/ (truthy (Arrivals.SCHIPHOL_APP_ID env) && truthy (Arrivals.SCHIPHOL_APP_KEY env) = true
      /\ exists e, r = Arrivals.internal_error e).
Proof.
  unfold Arrivals.handler.
  destruct (truthy (Arrivals.SCHIPHOL_APP_ID env)),
           (truthy (Arrivals.SCHIPHOL_APP_KEY env)); cbn [negb orb andb];
    try (intros [= <-] _; by left).
  unfold mbind, Arrivals.M_bind, mret, Arrivals.M_ret.
  destruct (Arrivals.effect _ s) as [nl s1].
  destruct (Arrivals.cache_lookup w _ s1) as [[c|] s2].
  { destruct (Arrivals.Date_now w s2) as [n1 s3].
    destruct (Arrivals.Date_now w s3) as [n2 s4]. simpl. by intros [= <-]. }
  destruct (Arrivals.paginate w _ _ _ _ s2) as [[[l|e]|] s3]; simpl; [| |done].
  - pose proof (respond_status w nl (Arrivals.get_prop "timeWindow" queryParams)) as Hst.
    match goal with |- context [Arrivals.respond w nl ?tw ?p ?k l s3] =>
      specialize (Hst p k l s3); destruct (Arrivals.respond w nl tw p k l s3) as [[r'|e] s4]
    end; simpl in *.
    + intros [= <-] H500. rewrite (Hst r') in H500; done.
    + intros [= <-] _. right. eauto.
  - intros [= <-] _. right. eauto.
Qed.

Lemma internal_error_body msg :
  has_empty_flights
    (stringify (JObj [ ("message", JStr "Internal Server Error.");
                       ("error", JStr msg); ("flights", JArr []) ])).
Proof.
  eexists. split.
  - apply parse_stringify_flat; [done|]. repeat constructor.
  - reflexivity.
Qed.

(** C1 (amended). A 500 response of the catch block of the Schiphol
    handler has a body that reads as a JSON object whose [flights]
    property is the empty array; its 500 response for absent
    credentials has a body that reads as the JSON object with the one
    property [message]. *)
Theorem failure_bodies (w : Arrivals.World) (env : Arrivals.Env)
        (queryParams : list (string * string)) (s : Arrivals.State)
        (r : Arrivals.HttpResponse) :
  fst (Arrivals.handler w env queryParams s) = Some r ->
  Arrivals.statusCode r = 500 ->
  exists text,
    Arrivals.body r = Arrivals.BodyText text
    /\ if truthy (Arrivals.SCHIPHOL_APP_ID env) && truthy (Arrivals.SCHIPHOL_APP_KEY env)
       then has_empty_flights text
       else parse text = Some (JObj [("message", JStr "Server configuration error.")]).
Proof.
  intros Hr H500.
  destruct (handler_500 w env queryParams s r Hr H500) as [[-> ->]|[-> [e ->]]].
  - eexists. split; [reflexivity|]. vm_compute. reflexivity.
  - eexists. split; [reflexivity|]. apply internal_error_body.
Qed.

End FailureFacts.

Example null_entry_fails :
  fst (Arrivals.handler Samples.null_entry_world Samples.credentials [] Samples.cold_exhausted)
  = Some (Arrivals.internal_error
            (TypeError "Cannot read properties of null (reading 'scheduleDate')")).
Proof. vm_compute. reflexivity. Qed.

Lemma failure_bodies_witness :
  exists text,
    Arrivals.body (Arrivals.internal_error
                     (TypeError "Cannot read properties of null (reading 'scheduleDate')"))
    = Arrivals.BodyText text
    /\ Json.has_empty_flights text.
Proof.
  apply (failure_bodies Samples.null_entry_world Samples.credentials []
           Samples.cold_exhausted).
  - vm_compute. reflexivity.
  - reflexivity.
Defined.

(** C1 as stated fails: without credentials the Schiphol handler
    answers 500 with a body that reads as a JSON object without a
    [flights] property. *)
Lemma missing_credentials_counterexample :
  exists text,
    fst (Arrivals.handler Samples.world Samples.no_credentials [] Samples.cold_exhausted)
    = Some {| Arrivals.statusCode := 500; Arrivals.headers := [];
              Arrivals.body := Arrivals.BodyText text |}
    /\ Json.lacks_flights text /\ ~ Json.has_empty_flights text.
Proof.
  eexists. split; [vm_compute; reflexivity|].
  split; [eexists; split; vm_compute; reflexivity|].
  intros (fields & Hparse & Hflights). vm_compute in Hparse.
  injection Hparse as <-. discriminate.
Qed.


(** ** Strings: splitting, trimming, searching *)

Section TextFacts.

Import Text.

#[local] Arguments String.append !s1 s2 : simpl nomatch.

Lemma occurs_append c a b : occurs c (a ++ b) = occurs c a || occurs c b.
Proof.
  induction a as [|x a IH]; simpl; [done|]. rewrite IH. by rewrite orb_assoc.
Qed.

Lemma split_free sep s : occurs sep s = false -> split sep s = [s].
Proof.
  induction s as [|c s IH]; simpl; [done|].
  intros [Hc Hs]%orb_false_elim. rewrite Hc, (IH Hs). done.
Qed.

Lemma split_append sep a b :
  occurs sep a = false -> split sep (a ++ String sep b) = a :: split sep b.
Proof.
  induction a as [|c a IH]; simpl.
  - intros _. by rewrite Ascii.eqb_refl.
  - intros [Hc Ha]%orb_false_elim. rewrite Hc, (IH Ha). done.
Qed.

(** [split] undoes [join] on fields free of the separator. *)
Lemma split_join fs :
  fs <> [] ->
  Forall (fun f => occurs "," f = false) fs ->
  split "," (Json.join "," fs) = fs.
Proof.
  induction fs as [|f fs IH]; [done|]. intros _ Hfree.
  apply Forall_cons in Hfree as [Hf Hfs].
  destruct fs as [|g fs]; [by apply split_free|].
  change (Json.join "," (f :: g :: fs)) with (f ++ String "," (Json.join "," (g :: fs))).
  rewrite split_append by done. by rewrite IH.
Qed.

Lemma rev_string_append acc a b :
  rev_string acc (a ++ b) = rev_string (rev_string acc a) b.
Proof. revert acc. induction a as [|c a IH]; intros acc; simpl; [done|]. apply IH. Qed.

Lemma rev_string_twice a b s :
  rev_string b (rev_string a s) = rev_string (s ++ b) a.
Proof.
  revert a. induction s as [|c s IH]; intros a; simpl; [done|]. by rewrite IH.
Qed.

(** [trim] leaves alone a text that neither starts nor ends with
    white space. *)
Lemma trim_tight c body d :
  is_space c = false -> is_space d = false ->
  trim (String c (body ++ String d "")) = String c (body ++ String d "").
Proof.
  intros Hc Hd. unfold trim.
  set (R := rev_string "" (String c body)).
  assert (trim_start (String c (body ++ String d "")) = String c (body ++ String d ""))
    as -> by (simpl; by rewrite Hc).
  assert (rev_string "" (String c (body ++ String d "")) = String d R) as ->.
  { change (String c (body ++ String d "")) with (String c body ++ String d "").
    by rewrite rev_string_append. }
  assert (trim_start (String d R) = String d R) as -> by (simpl; by rewrite Hd).
  change (rev_string "" (String d R)) with (rev_string (String d "") R).
  unfold R. by rewrite rev_string_twice.
Qed.

Lemma prefix_append p b : String.prefix p (p ++ b) = true.
Proof.
  induction p as [|c p IH]; simpl; [by destruct b|].
  destruct (ascii_dec c c); [done|congruence].
Qed.

Lemma indexOf_unfold p c r :
  indexOf p (String c r)
  = if String.prefix p (String c r) then Some 0%nat else S <$> indexOf p r.
Proof. reflexivity. Qed.

Lemma indexOf_found p a b : is_Some (indexOf p (a ++ p ++ b)).
Proof.
  induction a as [|c a IH].
  - change ("" ++ p ++ b) with (p ++ b).
    pose proof (prefix_append p b) as Hp.
    destruct (p ++ b) as [|x r].
    + change (indexOf p "") with (if String.prefix p "" then Some 0%nat else None).
      rewrite Hp. by eexists.
    + rewrite indexOf_unfold, Hp. by eexists.
  - change (String c a ++ p ++ b) with (String c (a ++ p ++ b)).
    rewrite indexOf_unfold. destruct (String.prefix _ _); [by eexists|].
    destruct IH as [i ->]. by eexists.
Qed.

Lemma indexOf_char c a b :
  occurs c a = false -> indexOf (String c "") (a ++ String c b) = Some (String.length a).
Proof.
  induction a as [|x a IH].
  - intros _. change ("" ++ String c b) with (String c b).
    rewrite indexOf_unfold.
    pose proof (prefix_append (String c "") b) as Hp.
    change (String c "" ++ b) with (String c b) in Hp. by rewrite Hp.
  - intros [Hx Ha]%orb_false_elim.
    change (String x a ++ String c b) with (String x (a ++ String c b)).
    rewrite indexOf_unfold.
    assert (String.prefix (String c "") (String x (a ++ String c b)) = false) as ->.
    { simpl. destruct (ascii_dec c x) as [->|_]; [|done].
      by rewrite Ascii.eqb_refl in Hx. }
    by rewrite (IH Ha).
Qed.

Lemma substring_prefix u r : String.substring 0 (String.length u) (u ++ r) = u.
Proof.
  induction u as [|c u IH]; simpl.
  - by destruct r.
  - by rewrite IH.
Qed.

End TextFacts.


(** ** The Link header and the dataset lines *)

Section LinkFacts.

Import Text.

#[local] Arguments String.append !s1 s2 : simpl nomatch.

Lemma next_entry_shapes u :
  next_entry u = String "<" (u ++ String ">" ("; " ++ Arrivals.rel_next))
  /\ next_entry u
     = String "<" ((u ++ ">; rel=" ++ String "034" "next") ++ String "034" "")
  /\ next_entry u = String "<" (u ++ ">; ") ++ Arrivals.rel_next ++ "".
Proof.
  unfold next_entry. split; [reflexivity|]. split.
  - rewrite append_assoc. reflexivity.
  - change (String "<" (u ++ ">; ") ++ Arrivals.rel_next ++ "")
      with (String "<" ((u ++ ">; ") ++ Arrivals.rel_next ++ "")).
    rewrite append_assoc. reflexivity.
Qed.

(** X1. A Link header that consists of one entry [<u>; rel="next"],
    with no angle bracket or comma inside [u], yields [u], made
    absolute against the API origin when it starts with a slash and
    with the placeholder host replaced when it has one. *)
Theorem getNextPageUrl_next (u : string) :
  occurs "<" u = false -> occurs ">" u = false -> occurs "," u = false ->
  Arrivals.getNextPageUrl (Some (next_entry u)) = Some (qualified u).
Proof.
  intros Hlt Hgt Hcomma.
  destruct (next_entry_shapes u) as (Hshape & Htight & Hrel).
  unfold Arrivals.getNextPageUrl.
  assert (truthy (Some (next_entry u)) = true) as -> by reflexivity.
  assert (or_empty (Some (next_entry u)) = next_entry u) as -> by reflexivity.
  assert (split "," (next_entry u) = [next_entry u]) as ->.
  { apply split_free. rewrite Hshape. simpl. rewrite occurs_append, Hcomma. reflexivity. }
  assert (trim (next_entry u) = next_entry u) as Htrim.
  { rewrite Htight. by apply trim_tight. }
  simpl. rewrite Htrim.
  assert (includes Arrivals.rel_next (next_entry u) = true) as ->.
  { unfold includes. apply bool_decide_eq_true. rewrite Hrel. apply indexOf_found. }
  unfold Arrivals.next_url_of.
  assert (indexOf "<" (next_entry u) = Some 0%nat) as ->.
  { rewrite Hshape, indexOf_unfold.
    pose proof (prefix_append "<" (u ++ String ">" ("; " ++ Arrivals.rel_next))) as Hp.
    change ("<" ++ u ++ String ">" ("; " ++ Arrivals.rel_next))
      with (String "<" (u ++ String ">" ("; " ++ Arrivals.rel_next))) in Hp.
    by rewrite Hp. }
  assert (indexOf ">" (next_entry u) = Some (S (String.length u))) as ->.
  { rewrite Hshape, indexOf_unfold.
    assert (String.prefix ">" (String "<" (u ++ String ">" ("; " ++ Arrivals.rel_next)))
            = false) as -> by reflexivity.
    by rewrite indexOf_char. }
  assert (substring 1 (S (String.length u)) (next_entry u) = u) as ->.
  { unfold substring. rewrite Hshape. simpl Nat.min. simpl Nat.max.
    replace (S (String.length u) - 1)%nat with (String.length u) by lia.
    simpl. apply substring_prefix. }
  unfold qualified. by repeat case_match.
Qed.

(** X2. A dataset line of at least five comma-free fields is read as
    the airport whose name, city, country and code are the second to
    fifth fields without their quotes; a line of fewer fields is
    dropped. *)
Theorem parse_line_fields (fs : list string) :
  fs <> [] ->
  Forall (fun f => occurs "," f = false) fs ->
  Arrivals.parse_line (Json.join "," fs)
  = if (5 <=? length fs)%nat
    then Some {| Arrivals.a_iata := Arrivals.unquote (nth 4 fs "");
                 Arrivals.a_city := Arrivals.unquote (nth 2 fs "");
                 Arrivals.a_country := Arrivals.unquote (nth 3 fs "");
                 Arrivals.a_name := Arrivals.unquote (nth 1 fs "") |}
    else None.
Proof.
  intros Hne Hfree. unfold Arrivals.parse_line. by rewrite split_join.
Qed.

End LinkFacts.

Lemma getNextPageUrl_next_witness :
  Arrivals.getNextPageUrl (Some (Text.next_entry "/public-flights/flights?page=7"))
  = Some "https://api.schiphol.nl/public-flights/flights?page=7".
Proof.
  apply (getNextPageUrl_next "/public-flights/flights?page=7"); reflexivity.
Defined.

Lemma parse_line_fields_witness :
  Arrivals.parse_line
    (Json.join "," ["580"; quoted "Amsterdam Airport Schiphol"; quoted "Amsterdam";
                    quoted "Netherlands"; quoted "AMS"; quoted "EHAM"])
  = Some {| Arrivals.a_iata := "AMS"; Arrivals.a_city := "Amsterdam";
            Arrivals.a_country := "Netherlands";
            Arrivals.a_name := "Amsterdam Airport Schiphol" |}.
Proof.
  apply (parse_line_fields ["580"; quoted "Amsterdam Airport Schiphol"; quoted "Amsterdam";
                            quoted "Netherlands"; quoted "AMS"; quoted "EHAM"]).
  - discriminate.
  - repeat constructor.
Defined.


(** ** Request parameters, cache keys and the page fetcher *)

Section ParamFacts.

Import Arrivals Text.

Lemma get_set_eq {V} k (v : V) l : get_prop k (set_prop k v l) = Some v.
Proof.
  induction l as [|[k' v'] r IH]; simpl.
  - by rewrite String.eqb_refl.
  - destruct (String.eqb k k') eqn:Hk; simpl; [by rewrite String.eqb_refl|].
    by rewrite Hk.
Qed.

Lemma get_set_ne {V} k k' (v : V) l :
  k <> k' -> get_prop k' (set_prop k v l) = get_prop k' l.
Proof.
  intros Hne. induction l as [|[k0 v0] r IH]; simpl.
  - destruct (String.eqb_spec k' k); [congruence|done].
  - destruct (String.eqb_spec k k0) as [->|Hk0]; simpl.
    + destruct (String.eqb_spec k' k0); [congruence|done].
    + destruct (String.eqb_spec k' k0); [done|apply IH].
Qed.

Lemma get_absent {V} k (l : list (string * V)) : k ∉ l.*1 -> get_prop k l = None.
Proof.
  induction l as [|[k0 v0] r IH]; simpl; [done|].
  intros Hnot. destruct (String.eqb_spec k k0) as [->|Hne].
  - exfalso. apply Hnot. left.
  - apply IH. intros Hin. apply Hnot. by right.
Qed.

Lemma clean_fold_keys params acc k :
  is_Some (get_prop k (fold_left clean_step params acc)) ->
  is_Some (get_prop k acc) \/ k ∈ validParams.
Proof.
  revert acc. induction params as [|[k0 v0] r IH]; intros acc H; simpl in *; [by left|].
  destruct (IH _ H) as [Hacc|Hvalid]; [|by right].
  unfold clean_step in Hacc. simpl in Hacc. case_bool_decide as Hk0; [|by left].
  destruct (decide (k0 = k)) as [<-|Hne]; [by right|].
  left. by rewrite get_set_ne in Hacc.
Qed.

Lemma clean_fold_value params acc k :
  NoDup params.*1 -> k ∈ validParams ->
  get_prop k (fold_left clean_step params acc)
  = match get_prop k params with
    | Some v => Some (Json.JStr v)
    | None => get_prop k acc
    end.
Proof.
  intros Hnd Hvalid. revert acc.
  induction params as [|[k0 v0] r IH]; intros acc; simpl in *; [done|].
  apply NoDup_cons in Hnd as [Hfresh Hnd]. rewrite (IH Hnd).
  destruct (String.eqb_spec k k0) as [->|Hne].
  - rewrite (get_absent _ _ Hfresh). unfold clean_step. simpl.
    rewrite bool_decide_eq_true_2 by done. apply get_set_eq.
  - destruct (get_prop k r); [done|]. unfold clean_step. simpl.
    case_bool_decide; [|done]. by rewrite get_set_ne.
Qed.

Lemma cleaned_direction params :
  get_prop "flightDirection" (validateAndCleanParams params) = Some (Json.JStr "A").
Proof. apply get_set_eq. Qed.

(** X4. [validateAndCleanParams] forces [flightDirection] to "A",
    keeps only whitelisted keys, and passes the value of every other
    whitelisted key of the caller through. *)
Theorem validateAndCleanParams_whitelist (params : list (string * string)) :
  get_prop "flightDirection" (validateAndCleanParams params) = Some (Json.JStr "A")
  /\ (forall k, is_Some (get_prop k (validateAndCleanParams params)) -> k ∈ validParams)
  /\ (NoDup params.*1 ->
      forall k, k ∈ validParams -> k <> "flightDirection" ->
                get_prop k (validateAndCleanParams params)
                = Json.JStr <$> get_prop k params).
Proof.
  unfold validateAndCleanParams. fold clean_step.
  split; [apply get_set_eq|]. split.
  - intros k Hk. destruct (decide (k = "flightDirection")) as [->|Hne].
    + apply (bool_decide_unpack _). by vm_compute.
    + rewrite get_set_ne in Hk by done.
      by destruct (clean_fold_keys _ _ _ Hk) as [[? ?]|?].
  - intros Hnd k Hvalid Hne. rewrite get_set_ne by done.
    rewrite clean_fold_value by done. by destruct (get_prop k params).
Qed.

(** X5. Whatever the caller sends, the parameters of the first
    request ask for arrivals, carry a non-empty sort order and a
    page. *)
Theorem build_apiParams_forced (nl : LocalTime) (rawQueryParams : list (string * string)) :
  get_prop "flightDirection" (build_apiParams nl rawQueryParams) = Some (Json.JStr "A")
  /\ (exists c r, get_prop "sort" (build_apiParams nl rawQueryParams)
                  = Some (Json.JStr (String c r)))
  /\ is_Some (get_prop "page" (build_apiParams nl rawQueryParams)).
Proof.
  unfold build_apiParams.
  set (base := if (0 <? length rawQueryParams)%nat then _ else _).
  assert (get_prop "flightDirection" base = Some (Json.JStr "A")) as Hdir.
  { unfold base. destruct (0 <? length rawQueryParams)%nat; [|reflexivity].
    apply cleaned_direction. }
  set (sorted := match get_prop "sort" base with
                 | Some (Json.JStr (String _ _)) => base
                 | _ => set_prop "sort" (Json.JStr "+scheduleTime") base
                 end).
  assert (get_prop "flightDirection" sorted = Some (Json.JStr "A")
          /\ exists c r, get_prop "sort" sorted = Some (Json.JStr (String c r)))
    as [Hdir' Hsort].
  { unfold sorted. destruct (get_prop "sort" base) as [[| | |[|c r]| |]|] eqn:Hs;
      rewrite ?get_set_ne, ?get_set_eq by done; eauto. }
  destruct (get_prop "page" sorted) eqn:Hpage.
  - rewrite Hpage. eauto.
  - rewrite !get_set_ne, get_set_eq by done. eauto.
Qed.

Lemma delete_set_page (v : string) l :
  delete_prop "page" (set_prop "page" v l) = delete_prop "page" l.
Proof.
  unfold delete_prop. induction l as [|[k0 v0] r IH]; [done|].
  cbn [set_prop]. destruct (String.eqb "page" k0) eqn:Hk.
  - cbn [List.filter fst negb]. by rewrite String.eqb_refl, Hk.
  - cbn [List.filter fst negb]. rewrite Hk. cbn [negb]. by rewrite IH.
Qed.

Lemma set_prop_length {V} k (v : V) l : (0 <? length (set_prop k v l))%nat = true.
Proof. destruct l as [|[k0 v0] r]; simpl; [done|]. by destruct (String.eqb k k0). Qed.

(** X6. The cache key of a parameterized query does not depend on the
    page it asks for, nor on the time window. *)
Theorem getFlightCacheKey_ignores_page
        (date : string) (tw tw' : option string) (pg pg' : string)
        (params : list (string * string)) :
  getFlightCacheKey date tw (set_prop "page" pg params)
  = getFlightCacheKey date tw' (set_prop "page" pg' params).
Proof.
  unfold getFlightCacheKey. by rewrite !set_prop_length, !delete_set_page.
Qed.

(** X7. For a time of day, the estimated starting page lies between 0
    and 47, and is 0 exactly in the half hour from 06:00. *)
Theorem estimateStartingPage_range (hour minute : Z) :
  0 <= hour < 24 -> 0 <= minute < 60 ->
  0 <= estimateStartingPage hour minute <= 47
  /\ (estimateStartingPage hour minute = 0 <-> hour = 6 /\ minute < 30).
Proof.
  intros Hh Hm. unfold estimateStartingPage.
  assert (minute * 2 / 60 = if minute <? 30 then 0 else 1) as ->.
  { destruct (Z.ltb_spec minute 30).
    - apply Z.div_small. lia.
    - symmetry. apply (Z.div_unique _ _ 1 (minute * 2 - 60)); lia. }
  destruct (Z.ltb_spec (hour - 6) 0), (Z.ltb_spec minute 30); lia.
Qed.

End ParamFacts.

Lemma estimateStartingPage_range_witness :
  0 <= Arrivals.estimateStartingPage 16 57 <= 47
  /\ (Arrivals.estimateStartingPage 16 57 = 0 <-> 16 = 6 /\ 57 < 30).
Proof. apply estimateStartingPage_range; lia. Defined.

Example estimateStartingPage_at_16_57 : Arrivals.estimateStartingPage 16 57 = 21.
Proof. reflexivity. Qed.

Lemma validateAndCleanParams_whitelist_witness :
  Arrivals.get_prop "airline"
    (Arrivals.validateAndCleanParams
       [("airline", "KL"); ("flightDirection", "D"); ("debug", "1")])
  = Json.JStr <$> Some "KL".
Proof.
  destruct (validateAndCleanParams_whitelist
              [("airline", "KL"); ("flightDirection", "D"); ("debug", "1")])
    as (_ & _ & Hpass).
  apply Hpass.
  - apply (bool_decide_unpack _). by vm_compute.
  - apply (bool_decide_unpack _). by vm_compute.
  - discriminate.
Defined.


(** ** Pages and the flights kept from them *)

Section PageFacts.

Import Arrivals.
Variable w : World.

(** X3. [fetchPage] never fails: a rejected request or a status other
    than 200 gives the empty page without a further page, and a page
    that announces a further page carries a non-empty URL for it. *)
Theorem fetchPage_fail_soft (url : option string) (params : option Params) (s : State) :
  (hasMore (fst (fetchPage w url params s)) = true ->
   exists c r, nextUrl (fst (fetchPage w url params s)) = Some (String c r))
  /\ match schiphol w (tick s) url params with
     | NetworkError => fst (fetchPage w url params s) = empty_page
     | HttpReplied status _ _ =>
         status <> 200 -> fst (fetchPage w url params s) = empty_page
     end.
Proof.
  unfold fetchPage, effect, mbind, M_bind, mret, M_ret. simpl.
  destruct (schiphol w (tick s) url params) as [|status fs link]; simpl.
  - split; [done|done].
  - destruct (Z.eqb_spec status 200) as [->|Hne]; simpl.
    + split; [|done]. unfold truthy.
      destruct (getNextPageUrl link) as [[|c r]|]; try done. eauto.
    + split; [done|done].
Qed.

Lemma isFlightInFuture_total f now :
  exists b, isFlightInFuture w (Some f) now = Normal b.
Proof. unfold isFlightInFuture. repeat case_match; eauto. Qed.

(** X8. Filtering a page for future flights throws exactly when the
    page holds a [null] entry; otherwise it keeps, in order, exactly
    the flights for which [isFlightInFuture] is true. *)
Theorem filter_future_spec (fs : list (option Flight)) (now : Z) :
  match filter_future w fs now with
  | Normal out =>
      exists flights,
        fs = Some <$> flights /\ out = List.filter (Text.future w now) flights
  | Throw _ => None ∈ fs
  end.
Proof.
  induction fs as [|[f|] fs IH]; cbn [filter_future].
  - by exists [].
  - destruct (isFlightInFuture_total f now) as [b Hb]. rewrite Hb. cbn [cbind].
    destruct (filter_future w fs now) as [out|e]; cbn [cbind].
    + destruct IH as (flights & -> & ->). exists (f :: flights). split; [done|].
      assert (Text.future w now f = b) as Hf
        by (unfold Text.future; rewrite Hb; by destruct b).
      cbn [List.filter]. rewrite Hf. by destruct b.
    + by right.
  - left.
Qed.

Lemma filter_future_all fs now out :
  filter_future w fs now = Normal out ->
  Forall (fun f => isFlightInFuture w (Some f) now = Normal true) out
  /\ (length out <= length fs)%nat.
Proof.
  revert out. induction fs as [|[f|] fs IH]; intros out; cbn [filter_future].
  - intros [= <-]. split; [constructor|done].
  - destruct (isFlightInFuture_total f now) as [b Hb]. rewrite Hb. cbn [cbind].
    destruct (filter_future w fs now) as [rest|e]; cbn [cbind]; [|done].
    destruct (IH rest eq_refl) as [Hall Hlen].
    destruct b; intros [= <-]; split; simpl; try lia; try done.
    by constructor.
  - done.
Qed.

End PageFacts.


(** ** What the paginate loop keeps and counts *)

Section LoopFacts.

Import Arrivals Text.
Variable w : World.
Variables maxPages nlTime : Z.

Lemma iteration_accumulated l s :
  accumulated w nlTime l ->
  match iteration w maxPages nlTime l s with
  | (Exit l', _) | (Continue l', _) => accumulated w nlTime l'
  | (Raise _, _) => True
  end.
Proof.
  intros [Hfut Hseen]. unfold iteration.
  destruct (l_hasMore l && (pageCount l <? maxPages)); simpl; [|done].
  unfold mbind, M_bind, mret, M_ret.
  destruct (fetchPage w _ _ s) as [page s1].
  destruct (length (flights page) =? 0)%nat; [done|].
  destruct (filter_future w (flights page) nlTime) as [ff|e] eqn:Hff; [|done].
  destruct (filter_future_all w _ _ _ Hff) as [Hall Hlen].
  assert (Forall (fun f => isFlightInFuture w (Some f) nlTime = Normal true)
                 (allFlights l ++ ff)) as Hf2 by (by apply Forall_app).
  assert (Z.of_nat (length (allFlights l ++ ff)%list)
          <= totalFlightsSeen l + Z.of_nat (length (flights page))) as Hs2
    by (rewrite length_app; lia).
  unfold accumulated. cbv zeta.
  destruct ((length ff =? 0)%nat && _); [by split|].
  destruct (negb (hasMore page)); [by split|].
  destruct (maxPages - 1 <=? pageCount l); by split.
Qed.

Lemma paginate_accumulated fuel l s l' s' :
  accumulated w nlTime l ->
  paginate w fuel maxPages nlTime l s = (Some (Normal l'), s') ->
  accumulated w nlTime l'.
Proof.
  revert l s. induction fuel as [|n IH]; intros l s Hacc; simpl; [done|].
  unfold mbind, M_bind. pose proof (iteration_accumulated l s Hacc) as Hit.
  destruct (iteration w maxPages nlTime l s) as [[l1|l1|e] s1]; simpl.
  - by intros [= <- <-].
  - by apply IH.
  - done.
Qed.

(** X9. Every flight the paginate loop hands to the normalizer passed
    [isFlightInFuture], and the flights handed on are no more than the
    flights seen. *)
Theorem paginate_keeps_future (fuel : nat) (l l' : Loop) (s s' : State) :
  allFlights l = [] -> 0 <= totalFlightsSeen l ->
  paginate w fuel maxPages nlTime l s = (Some (Normal l'), s') ->
  Forall (fun f => isFlightInFuture w (Some f) nlTime = Normal true) (allFlights l')
  /\ Z.of_nat (length (allFlights l')) <= totalFlightsSeen l'.
Proof.
  intros Hnil Hseen Hrun. apply (paginate_accumulated fuel l s l' s'); [|done].
  split; rewrite Hnil; [constructor|simpl; lia].
Qed.

Lemma iteration_fetches l s :
  l_hasMore l = true -> pageCount l < maxPages ->
  match iteration w maxPages nlTime l s with
  | (Exit l', s') => tick s' = S (tick s) /\ pageCount l' = pageCount l
  | (Continue l', s') =>
      tick s' = S (tick s) /\ pageCount l' = pageCount l + 1
      /\ pageCount l' < maxPages /\ l_hasMore l' = true
  | (Raise _, _) => True
  end.
Proof.
  intros Hmore Hlt. unfold iteration.
  rewrite Hmore. apply Z.ltb_lt in Hlt as Hltb. rewrite Hltb. simpl.
  unfold mbind, M_bind, mret, M_ret.
  pose proof (fetchPage_tick w (currentUrl l)
                (if pageCount l =? 0 then currentParams l else None) s) as Ht.
  destruct (fetchPage w _ _ s) as [page s1]. simpl in Ht.
  repeat (case_match; simplify_eq/=); try done.
  all: repeat split; try done.
  all: match goal with H : (_ <=? _) = false |- _ => apply Z.leb_gt in H; lia end.
Qed.

Lemma paginate_fetches fuel :
  forall l s l' s',
    l_hasMore l = true -> pageCount l < maxPages ->
    paginate w fuel maxPages nlTime l s = (Some (Normal l'), s') ->
    tick s' = (tick s + Z.to_nat (pageCount l' - pageCount l + 1))%nat
    /\ pageCount l <= pageCount l' < maxPages.
Proof.
  induction fuel as [|n IH]; intros l s l' s' Hmore Hlt; simpl; [done|].
  unfold mbind, M_bind. pose proof (iteration_fetches l s Hmore Hlt) as Hit.
  destruct (iteration w maxPages nlTime l s) as [[l1|l1|e] s1]; simpl.
  - destruct Hit as [Ht Hpc]. intros [= <- <-]. lia.
  - destruct Hit as (Ht & Hpc & Hlt1 & Hmore1). intros Hrun.
    destruct (IH l1 s1 l' s' Hmore1 Hlt1 Hrun) as [Hticks Hlt']. lia.
  - done.
Qed.

(** X10. When the loop runs with a budget of at least one page, the
    page count it reports (pagesRetrieved, the final page count plus
    one) is the number of pages fetched, and stays within the
    budget. *)
Theorem pagesRetrieved_counts_fetches (fuel : nat) (l l' : Loop) (s s' : State) :
  pageCount l = 0 -> l_hasMore l = true -> 1 <= maxPages ->
  paginate w fuel maxPages nlTime l s = (Some (Normal l'), s') ->
  Z.of_nat (tick s' - tick s) = pageCount l' + 1
  /\ pageCount l' + 1 <= maxPages.
Proof.
  intros Hpc Hmore Hmax Hrun.
  destruct (paginate_fetches fuel l s l' s' Hmore) as [Ht Hlt]; [lia|done|].
  rewrite Hpc in *. lia.
Qed.

End LoopFacts.

Lemma paginate_keeps_future_witness :
  Forall (fun f => Arrivals.isFlightInFuture Samples.endless_world (Some f) Samples.noon
                   = Normal true)
         [Samples.flight_at "2024-03-20" "11:50:00";
          Samples.flight_at "2024-03-20" "11:50:00";
          Samples.flight_at "2024-03-20" "11:50:00"]
  /\ 3 <= 3.
Proof.
  pose proof (paginate_keeps_future Samples.endless_world 3 Samples.noon 4
                Samples.first_page) as H.
  destruct (Arrivals.paginate Samples.endless_world 4 3 Samples.noon Samples.first_page
                              Samples.cold_exhausted) as [r s'] eqn:Hrun.
  vm_compute in Hrun. injection Hrun as <- <-.
  exact (H _ Samples.cold_exhausted _ eq_refl ltac:(simpl; lia) eq_refl).
Defined.

Lemma pagesRetrieved_counts_fetches_witness :
  Z.of_nat (3 - 0) = 2 + 1 /\ 2 + 1 <= 3.
Proof.
  pose proof (pagesRetrieved_counts_fetches Samples.endless_world 3 Samples.noon 4
                Samples.first_page) as H.
  destruct (Arrivals.paginate Samples.endless_world 4 3 Samples.noon Samples.first_page
                              Samples.cold_exhausted) as [r s'] eqn:Hrun.
  vm_compute in Hrun. injection Hrun as <- <-.
  exact (H _ Samples.cold_exhausted _ eq_refl eq_refl ltac:(lia) eq_refl).
Defined.


(** ** Early stop on pages of past flights *)

Section EarlyStop.

Import Arrivals.
Variable w : World.
Variables maxPages nlTime : Z.
Variable fs : list (option Flight).
Variable link : option string.

Hypothesis every_reply : forall t url params, schiphol w t url params = HttpReplied 200 (Some fs) link.
Hypothesis some_flights : fs <> [].
Hypothesis all_past : filter_future w fs nlTime = Normal [].
Hypothesis more_announced : truthy (getNextPageUrl link) = true.

Lemma past_page url params s :
  exists s1,
    fetchPage w url params s
    = ({| flights := fs; hasMore := true; nextUrl := getNextPageUrl link |}, s1)
    /\ tick s1 = S (tick s).
Proof.
  unfold fetchPage, effect, mbind, M_bind, mret, M_ret. simpl.
  rewrite every_reply. simpl. rewrite more_announced. eauto.
Qed.

(** One evaluation on a page of past flights: the count of such pages
    goes up, and the loop stops at the third. *)
Lemma iteration_past l s :
  l_hasMore l = true -> pageCount l < maxPages ->
  (pastFlightPagesCount l + 1 < MAX_PAST_PAGES -> pageCount l < maxPages - 1) ->
  exists s1,
    tick s1 = S (tick s)
    /\ iteration w maxPages nlTime l s
       = (if MAX_PAST_PAGES <=? pastFlightPagesCount l + 1
          then Exit {| allFlights := allFlights l; pageCount := pageCount l;
                       totalFlightsSeen := totalFlightsSeen l;
                       currentUrl := currentUrl l; currentParams := currentParams l;
                       l_hasMore := l_hasMore l;
                       pastFlightPagesCount := pastFlightPagesCount l + 1 |}
          else Continue {| allFlights := allFlights l; pageCount := pageCount l + 1;
                           totalFlightsSeen :=
                             totalFlightsSeen l + Z.of_nat (length fs);
                           currentUrl := getNextPageUrl link; currentParams := None;
                           l_hasMore := l_hasMore l;
                           pastFlightPagesCount := pastFlightPagesCount l + 1 |},
          s1).
Proof.
  intros Hmore Hlt Hcont. unfold iteration.
  assert (negb (l_hasMore l && (pageCount l <? maxPages)) = false) as ->.
  { rewrite Hmore. cbn [andb]. apply negb_false_iff, Z.ltb_lt. lia. }
  unfold mbind, M_bind, mret, M_ret.
  destruct (past_page (currentUrl l)
              (if pageCount l =? 0 then currentParams l else None) s) as (s1 & -> & Ht).
  exists s1. split; [done|]. cbn [flights hasMore nextUrl].
  assert ((length fs =? 0)%nat = false) as ->
    by (destruct fs; [done|reflexivity]).
  rewrite all_past. cbn [length Nat.eqb andb negb]. rewrite app_nil_r.
  destruct (Z.leb_spec MAX_PAST_PAGES (pastFlightPagesCount l + 1)); [done|].
  assert ((maxPages - 1 <=? pageCount l) = false) as -> by (apply Z.leb_gt; lia).
  done.
Qed.

(** X11. When every page holds flights but none that is future, the
    loop gives up at the third page: three fetches, nothing
    accumulated, and the hasMore flag still set. *)
Theorem paginate_gives_up (fuel : nat) (l : Loop) (s : State) :
  3 <= maxPages -> (3 <= fuel)%nat ->
  pageCount l = 0 -> l_hasMore l = true -> pastFlightPagesCount l = 0 ->
  exists l' s',
    paginate w fuel maxPages nlTime l s = (Some (Normal l'), s')
    /\ tick s' = (tick s + 3)%nat
    /\ allFlights l' = allFlights l
    /\ pageCount l' = 2
    /\ l_hasMore l' = true.
Proof.
  intros Hmax Hfuel Hpc Hmore Hpast.
  destruct fuel as [|[|[|n]]]; try lia. clear Hfuel.
  cbn [paginate]. unfold mbind, M_bind.
  destruct (iteration_past l s Hmore) as (s1 & Ht1 & ->);
    [lia|unfold MAX_PAST_PAGES; lia|].
  rewrite Hpast. change (MAX_PAST_PAGES <=? 0 + 1) with false. cbv beta iota.
  match goal with |- context [iteration w maxPages nlTime ?l1 s1] =>
    destruct (iteration_past l1 s1) as (s2 & Ht2 & ->);
      [exact Hmore|cbn; lia|cbn; unfold MAX_PAST_PAGES; lia|]
  end.
  cbn [pastFlightPagesCount].
  change (MAX_PAST_PAGES <=? 0 + 1 + 1) with false. cbv beta iota.
  match goal with |- context [iteration w maxPages nlTime ?l2 s2] =>
    destruct (iteration_past l2 s2) as (s3 & Ht3 & ->);
      [exact Hmore|cbn; lia|cbn; unfold MAX_PAST_PAGES; lia|]
  end.
  cbn [pastFlightPagesCount].
  change (MAX_PAST_PAGES <=? 0 + 1 + 1 + 1) with true. cbv beta iota.
  eexists _, s3. split; [reflexivity|]. cbn. rewrite Hpc.
  repeat split; try done. lia.
Qed.

End EarlyStop.

Lemma paginate_gives_up_witness :
  exists l' s',
    Arrivals.paginate Samples.endless_world 3 3 (Samples.noon + 3600000)
                      Samples.first_page Samples.cold_exhausted
    = (Some (Normal l'), s')
    /\ Arrivals.tick s' = (Arrivals.tick Samples.cold_exhausted + 3)%nat
    /\ Arrivals.allFlights l' = Arrivals.allFlights Samples.first_page
    /\ Arrivals.pageCount l' = 2
    /\ Arrivals.l_hasMore l' = true.
Proof.
  apply (paginate_gives_up Samples.endless_world 3 (Samples.noon + 3600000)
           [Some (Samples.flight_at "2024-03-20" "11:50:00")]
           (Some ("</public-flights/flights?page=1>; rel=" ++ JS.quoted "next"))).
  - intros; reflexivity.
  - discriminate.
  - by vm_compute.
  - by vm_compute.
  - lia.
  - lia.
  - reflexivity.
  - reflexivity.
  - reflexivity.
Defined.

(** ** The airport cache under the resolver *)

Section ResolverMore.

Import Arrivals.
Variable w : World.

Ltac run_r :=
  unfold fetchAirportData, fetchOpenFlightsData, cache_empty_or_expired,
    cached_fresh, cache_get, Date_now, effect, get_state, set_airportCache,
    set_lastCacheUpdate, set_apiCallsCount, mbind, M_bind, mret, M_ret;
  simpl.

Lemma fetchAirportData_keeps code code' s :
  is_Some (airportCache s !! code') ->
  is_Some (airportCache (snd (fetchAirportData w code s)) !! code').
Proof.
  intros Hc. run_r.
  repeat (case_match; simplify_eq/=); try done;
    try (apply store_airports_lookup; by left);
    (destruct (decide (code = code')) as [->|Hne];
     [rewrite lookup_insert_eq; eauto|by rewrite lookup_insert_ne]).
Qed.

(** X12. The resolver never evicts: a code that is cached before
    [batchFetchAirportData] runs is cached after it, whichever of its
    three branches runs. *)
Theorem batchFetchAirportData_never_evicts (iataCodes : list string) (code : string)
        (s : State) :
  is_Some (airportCache s !! code) ->
  is_Some (airportCache (snd (batchFetchAirportData w iataCodes s)) !! code).
Proof.
  intros Hc. unfold batchFetchAirportData, get_state, mbind, M_bind.
  destruct (length _ =? 0)%nat; [done|].
  destruct (MAX_API_CALLS <? _).
  - by apply fetchOpenFlightsData_keeps.
  - apply (for_each_invariant (fun s => is_Some (airportCache s !! code))); [|done].
    intros c s1 Hs1. pose proof (fetchAirportData_keeps c code s1 Hs1) as H.
    unfold mbind, M_bind. by destruct (fetchAirportData w c s1).
Qed.

(** X13. Whatever metadata [fetchAirportData] returns is what the
    cache holds for the code when it returns. *)
Theorem fetchAirportData_returns_cached (code : string) (d : AirportData) (s : State) :
  fst (fetchAirportData w code s) = Some d ->
  airportCache (snd (fetchAirportData w code s)) !! code = Some d.
Proof.
  run_r.
  repeat (case_match; simplify_eq/=); intros ?; simplify_eq/=; try done;
    by rewrite lookup_insert_eq.
Qed.

(** X14. A code cached under a fresh stamp is answered from the cache:
    one clock reading, no request, and the cache, its stamp and the
    call count are as before. *)
Theorem fetchAirportData_fresh_hit (code : string) (d : AirportData) (t0 : Z) (s : State) :
  airportCache s !! code = Some d ->
  lastCacheUpdate s = Some t0 -> t0 <> 0 ->
  clock w (tick s) - t0 < CACHE_DURATION ->
  let s' := snd (fetchAirportData w code s) in
  fst (fetchAirportData w code s) = Some d
  /\ airportCache s' = airportCache s
  /\ lastCacheUpdate s' = lastCacheUpdate s
  /\ apiCallsCount s' = apiCallsCount s
  /\ tick s' = S (tick s).
Proof.
  intros Hc Hl Ht Hfresh. run_r. rewrite Hc, Hl. simpl.
  assert ((t0 =? 0) = false) as -> by (apply Z.eqb_neq; lia). simpl.
  assert ((clock w (tick s) - t0 <? CACHE_DURATION) = true) as ->
    by (apply Z.ltb_lt; lia).
  simpl. done.
Qed.

(** X15. A stamp that has expired is not renewed by an answer of the
    lookup API: the call is counted, the answer is cached, and the
    stamp stays as it was. *)
Theorem fetchAirportData_expired_stamp (code : string) (t0 : Z) (s : State)
        (a b n : option string) :
  lastCacheUpdate s = Some t0 -> t0 <> 0 ->
  (forall t, CACHE_DURATION <= clock w t - t0) ->
  apiCallsCount s < MAX_API_CALLS ->
  (forall t, aviationstack w t code = ApiAirport a b n) ->
  let s' := snd (fetchAirportData w code s) in
  lastCacheUpdate s' = Some t0
  /\ apiCallsCount s' = apiCallsCount s + 1
  /\ airportCache s' !! code = fst (fetchAirportData w code s)
  /\ is_Some (fst (fetchAirportData w code s)).
Proof.
  intros Hl Ht Hexp Hbudget Hapi. run_r. rewrite Hl. simpl.
  assert ((t0 =? 0) = false) as Hz by (apply Z.eqb_neq; lia).
  assert (forall t, (clock w t - t0 <? CACHE_DURATION) = false) as Hold
    by (intros t; apply Z.ltb_ge, Hexp).
  assert ((MAX_API_CALLS <=? apiCallsCount s) = false) as Hb
    by (apply Z.leb_gt; lia).
  destruct (airportCache s !! code);
    repeat (rewrite ?Hl, ?Hz, ?Hold, ?Hb, ?Hapi; simpl);
    rewrite lookup_insert_eq; eauto.
Qed.

(** X16. A failed download of the dataset changes neither the cache
    nor its stamp nor the call count. *)
Theorem fetchOpenFlightsData_failure (s : State) :
  (forall t, openflights w t = None) ->
  let s' := snd (fetchOpenFlightsData w s) in
  airportCache s' = airportCache s
  /\ lastCacheUpdate s' = lastCacheUpdate s
  /\ apiCallsCount s' = apiCallsCount s
  /\ flightDataCache s' = flightDataCache s.
Proof.
  intros Hnet. run_r.
  repeat (case_match; simplify_eq/=); try done;
    match goal with H : openflights w _ = Some _ |- _ => by rewrite Hnet in H end.
Qed.

Lemma store_airports_size l c :
  l <> [] -> size (store_airports l c) <> 0%nat.
Proof.
  intros Hl Hsz. apply map_size_empty_inv in Hsz.
  destruct l as [|a l]; [done|].
  destruct (store_airports_lookup (a :: l) c (a_iata a)) as [x Hx].
  { right. by left. }
  by rewrite Hsz, lookup_empty in Hx.
Qed.

(** X17. The dataset is downloaded once per period: after a download
    that stored at least one record, a further call within
    [CACHE_DURATION] of the stamp reads the clock and changes
    nothing. *)
Theorem fetchOpenFlightsData_once (dat : string) (s : State) :
  (forall t, openflights w t = Some dat) ->
  parse_airports dat <> [] ->
  size (airportCache s) = 0%nat \/ truthy_num (lastCacheUpdate s) = false ->
  let s1 := snd (fetchOpenFlightsData w s) in
  (forall t0, lastCacheUpdate s1 = Some t0 ->
              t0 <> 0 /\ clock w (tick s1) - t0 < CACHE_DURATION) ->
  let s2 := snd (fetchOpenFlightsData w s1) in
  airportCache s2 = airportCache s1
  /\ lastCacheUpdate s2 = lastCacheUpdate s1
  /\ tick s2 = S (tick s1).
Proof.
  intros Hnet Hrec Hopen.
  assert (exists t1 k,
            snd (fetchOpenFlightsData w s)
            = {| airportCache := store_airports (parse_airports dat) (airportCache s);
                 lastCacheUpdate := Some t1; apiCallsCount := apiCallsCount s;
                 flightDataCache := flightDataCache s; tick := k |}) as (t1 & k & ->).
  { run_r. destruct (size (airportCache s) =? 0)%nat eqn:Hsz; simpl.
    - rewrite Hnet. simpl. eauto.
    - destruct Hopen as [H0|Hts]; [by apply Nat.eqb_neq in Hsz|].
      rewrite Hts. simpl. rewrite Hnet. simpl. eauto. }
  intros s1 Hfresh s2. subst s1 s2.
  destruct (Hfresh t1 eq_refl) as [Hne Hlt]. simpl in Hlt.
  run_r.
  destruct (size _ =? 0)%nat eqn:Hsz.
  { apply Nat.eqb_eq in Hsz. by apply store_airports_size in Hsz. }
  assert ((t1 =? 0) = false) as -> by (apply Z.eqb_neq; lia). simpl.
  assert ((CACHE_DURATION <=? clock w k - t1) = false) as ->
    by (apply Z.leb_gt; lia).
  done.
Qed.

Lemma fetchAirportData_answered code s :
  (forall t c, exists a b n, aviationstack w t c = ApiAirport a b n) ->
  apiCallsCount s < MAX_API_CALLS ->
  is_Some (airportCache (snd (fetchAirportData w code s)) !! code)
  /\ apiCallsCount (snd (fetchAirportData w code s)) <= apiCallsCount s + 1.
Proof.
  intros Hapi Hb. run_r.
  destruct (Hapi (tick s) code) as (a0 & b0 & n0 & Ha0).
  destruct (Hapi (S (tick s)) code) as (a1 & b1 & n1 & Ha1).
  assert ((MAX_API_CALLS <=? apiCallsCount s) = false) as Hlt
    by (apply Z.leb_gt; lia).
  repeat (case_match; simplify_eq/=);
    rewrite ?lookup_insert_eq; split; eauto; lia.
Qed.

Lemma for_each_fetch_all l :
  (forall t c, exists a b n, aviationstack w t c = ApiAirport a b n) ->
  forall s,
    apiCallsCount s + Z.of_nat (length l) <= MAX_API_CALLS ->
    forall code, code ∈ l ->
      is_Some (airportCache
                 (snd (for_each (fun c => fetchAirportData w c ;; mret tt) l s)) !! code).
Proof.
  intros Hapi. induction l as [|c l IH]; intros s Hb code Hin.
  { by apply elem_of_nil in Hin. }
  cbn [for_each]. unfold mbind at 1, M_bind at 1.
  cbn [length] in Hb.
  destruct (fetchAirportData_answered c s Hapi) as [Hc Hcnt]; [lia|].
  pose proof (fun c' => fetchAirportData_keeps c c' s) as Hkeep.
  unfold mbind, M_bind in *.
  destruct (fetchAirportData w c s) as [r s1]. simpl in *.
  unfold mret, M_ret.
  apply elem_of_cons in Hin as [->|Hin].
  - apply (for_each_invariant (fun s => is_Some (airportCache s !! c))); [|done].
    intros c' s2 Hs2. pose proof (fetchAirportData_keeps c' c s2 Hs2) as H.
    unfold mbind, M_bind. by destruct (fetchAirportData w c' s2).
  - apply IH; [lia|done].
Qed.

Lemma batch_fetch_all (iataCodes : list string) (s : State) :
  (forall t c, exists a b n, aviationstack w t c = ApiAirport a b n) ->
  apiCallsCount s + Z.of_nat (length iataCodes) <= MAX_API_CALLS ->
  forall code, code ∈ iataCodes ->
    is_Some (airportCache (snd (batchFetchAirportData w iataCodes s)) !! code).
Proof.
  intros Hapi Hb code Hin.
  destruct (decide (is_Some (airportCache s !! code))) as [Hc|Hc].
  { clear Hb. unfold batchFetchAirportData, get_state, mbind, M_bind.
    destruct (length _ =? 0)%nat; [done|].
    destruct (MAX_API_CALLS <? _).
    - by apply fetchOpenFlightsData_keeps.
    - apply (for_each_invariant (fun s => is_Some (airportCache s !! code))); [|done].
      intros c s1 Hs1. pose proof (fetchAirportData_keeps c code s1 Hs1) as H.
      unfold mbind, M_bind. by destruct (fetchAirportData w c s1). }
  unfold batchFetchAirportData, get_state, mbind, M_bind.
  set (uncached := List.filter _ iataCodes).
  assert (code ∈ uncached) as Hun.
  { apply list_elem_of_In, filter_In. split; [by apply list_elem_of_In|].
    by rewrite bool_decide_eq_false_2. }
  assert (length uncached <= length iataCodes)%nat as Hlen
    by apply List.filter_length_le.
  destruct (length uncached =? 0)%nat eqn:Hz.
  { apply Nat.eqb_eq in Hz. destruct uncached; [by apply elem_of_nil in Hun|done]. }
  assert ((MAX_API_CALLS <? apiCallsCount s + Z.of_nat (length uncached)) = false) as ->
    by (apply Z.ltb_ge; lia).
  apply for_each_fetch_all; [done|lia|done].
Qed.

(** X18. Within the call budget, and with the lookup API answering
    every request, [batchFetchAirportData] leaves every requested code
    cached. *)
Theorem batchFetchAirportData_caches_all (iataCodes : list string) (s : State) :
  (forall t c, exists a b n, aviationstack w t c = ApiAirport a b n) ->
  apiCallsCount s + Z.of_nat (length iataCodes) <= MAX_API_CALLS ->
  forall code, code ∈ iataCodes ->
    is_Some (airportCache (snd (batchFetchAirportData w iataCodes s)) !! code).
Proof. exact (batch_fetch_all iataCodes s). Qed.

End ResolverMore.

Lemma batchFetchAirportData_never_evicts_witness :
  is_Some (Arrivals.airportCache Samples.warm_exhausted !! "AMS")
  /\ is_Some (Arrivals.airportCache
                (snd (Arrivals.batchFetchAirportData Samples.world ["CDG"]
                        Samples.warm_exhausted)) !! "AMS").
Proof.
  assert (is_Some (Arrivals.airportCache Samples.warm_exhausted !! "AMS")) as H
    by (apply (bool_decide_unpack _); by vm_compute).
  split; [exact H|].
  exact (batchFetchAirportData_never_evicts Samples.world ["CDG"] "AMS"
           Samples.warm_exhausted H).
Defined.

Lemma fetchAirportData_returns_cached_witness :
  Arrivals.airportCache
    (snd (Arrivals.fetchAirportData Samples.world "CDG" Samples.nearly_exhausted)) !! "CDG"
  = Some {| Arrivals.city := Some "Paris"; Arrivals.country := Some "FR";
            Arrivals.name := Some "Charles de Gaulle";
            Arrivals.source := Some "aviationstack" |}.
Proof.
  apply (fetchAirportData_returns_cached Samples.world "CDG"). by vm_compute.
Defined.

Lemma fetchAirportData_fresh_hit_witness :
  fst (Arrivals.fetchAirportData Samples.world "AMS" Samples.warm_exhausted)
  = Some {| Arrivals.city := Some "Amsterdam"; Arrivals.country := Some "NL";
            Arrivals.name := Some "Schiphol"; Arrivals.source := Some "aviationstack" |}
  /\ Arrivals.apiCallsCount
       (snd (Arrivals.fetchAirportData Samples.world "AMS" Samples.warm_exhausted)) = 90.
Proof.
  destruct (fetchAirportData_fresh_hit Samples.world "AMS"
              {| Arrivals.city := Some "Amsterdam"; Arrivals.country := Some "NL";
                 Arrivals.name := Some "Schiphol";
                 Arrivals.source := Some "aviationstack" |}
              1699999999000 Samples.warm_exhausted)
    as (Hres & _ & _ & Hcnt & _).
  - by vm_compute.
  - reflexivity.
  - lia.
  - by vm_compute.
  - split; [exact Hres|exact Hcnt].
Defined.

Lemma fetchAirportData_expired_stamp_witness :
  let s := {| Arrivals.airportCache := Samples.schiphol_only;
              Arrivals.lastCacheUpdate := Some 1; Arrivals.apiCallsCount := 0;
              Arrivals.flightDataCache := []; Arrivals.tick := 0 |} in
  Arrivals.lastCacheUpdate (snd (Arrivals.fetchAirportData Samples.world "AMS" s)) = Some 1
  /\ Arrivals.apiCallsCount (snd (Arrivals.fetchAirportData Samples.world "AMS" s)) = 0 + 1.
Proof.
  intros s.
  destruct (fetchAirportData_expired_stamp Samples.world "AMS" 1 s
              (Some "Paris") (Some "FR") (Some "Charles de Gaulle"))
    as (Hl & Hc & _).
  - reflexivity.
  - lia.
  - intros t. unfold Arrivals.CACHE_DURATION. simpl. lia.
  - simpl. unfold Arrivals.MAX_API_CALLS. lia.
  - reflexivity.
  - split; [exact Hl|exact Hc].
Defined.

Lemma fetchOpenFlightsData_failure_witness :
  Arrivals.airportCache
    (snd (Arrivals.fetchOpenFlightsData Samples.null_entry_world Samples.cold_exhausted))
  = Arrivals.airportCache Samples.cold_exhausted
  /\ Arrivals.lastCacheUpdate
       (snd (Arrivals.fetchOpenFlightsData Samples.null_entry_world Samples.cold_exhausted))
     = None.
Proof.
  destruct (fetchOpenFlightsData_failure Samples.null_entry_world Samples.cold_exhausted)
    as (Hc & Hl & _).
  - reflexivity.
  - split; [exact Hc|exact Hl].
Defined.

Lemma fetchOpenFlightsData_once_witness :
  let s1 := snd (Arrivals.fetchOpenFlightsData Samples.world Samples.cold_exhausted) in
  let s2 := snd (Arrivals.fetchOpenFlightsData Samples.world s1) in
  Arrivals.airportCache s2 = Arrivals.airportCache s1
  /\ Arrivals.lastCacheUpdate s2 = Arrivals.lastCacheUpdate s1
  /\ Arrivals.tick s2 = S (Arrivals.tick s1).
Proof.
  apply (fetchOpenFlightsData_once Samples.world Samples.airports_dat
           Samples.cold_exhausted).
  - reflexivity.
  - by vm_compute.
  - by left.
  - intros t0 H. vm_compute in H. injection H as <-. split; [lia|by vm_compute].
Defined.

Lemma batchFetchAirportData_caches_all_witness :
  is_Some (Arrivals.airportCache
             (snd (Arrivals.batchFetchAirportData Samples.world ["CDG"]
                     Samples.nearly_exhausted)) !! "CDG").
Proof.
  apply (batchFetchAirportData_caches_all Samples.world ["CDG"] Samples.nearly_exhausted).
  - intros t c. simpl. eauto.
  - simpl. unfold Arrivals.MAX_API_CALLS. lia.
  - by constructor.
Defined.


(** ** Flight processing *)

Section ProcessFacts.

Import Arrivals Text.
Variable w : World.

Lemma includes_cons p a r : includes p r = true -> includes p (String a r) = true.
Proof.
  unfold includes. intros H%bool_decide_eq_true. apply bool_decide_eq_true.
  rewrite indexOf_unfold. destruct (String.prefix _ _); [by eexists|].
  destruct H as [i ->]. by eexists.
Qed.

Lemma includes_paren r : includes "(" (String "(" r) = true.
Proof.
  unfold includes. apply bool_decide_eq_true. rewrite indexOf_unfold.
  assert (String.prefix "(" (String "(" r) = true) as -> by (by destruct r).
  by eexists.
Qed.

Lemma match_iata_shape s c :
  match_iata s = Some c -> iata_shaped c /\ includes "(" s = true.
Proof.
  induction s as [|a r IH]; [done|].
  cbn [match_iata].
  destruct r as [|x [|y [|z [|e r']]]];
    try (intros H; destruct (IH H) as [Hs Hi]; split; [done|by apply includes_cons]).
  destruct (Ascii.eqb a "(" && is_upper x && is_upper y && is_upper z
            && Ascii.eqb e ")") eqn:Hc.
  - intros [= <-].
    apply andb_prop in Hc as [Hc _]. apply andb_prop in Hc as [Hc Hz].
    apply andb_prop in Hc as [Hc Hy]. apply andb_prop in Hc as [Ha Hx].
    apply Ascii.eqb_eq in Ha as ->.
    split; [by exists x, y, z|apply includes_paren].
  - intros H; destruct (IH H) as [Hs Hi]; split; [done|by apply includes_cons].
Qed.

Lemma attach_city_annotated cache f f' :
  attach_city cache f = Normal f' -> annotated cache f f'.
Proof.
  unfold attach_city, annotated.
  destruct (flight_code f) as [code|] eqn:Hcode; [|intros [= <-]; tauto].
  destruct (cache !! code) as [d|] eqn:Hd; [|intros [= <-]; tauto].
  destruct (getFlagEmoji (country d)) as [flag|e] eqn:Hflag; [|done].
  cbn [cbind]. intros [= <-]. cbn [scheduleDate scheduleTime destination cityInfo].
  assert (includes "(" (or_empty (destination f)) = true) as ->.
  { unfold flight_code in Hcode. destruct (truthy (destination f)); [|done].
    by apply match_iata_shape in Hcode as [_ ?]. }
  repeat split. right. by exists code, d, flag.
Qed.

Lemma attach_city_cached cache f f' code :
  attach_city cache f = Normal f' -> flight_code f = Some code ->
  is_Some (cache !! code) -> is_Some (cityInfo f').
Proof.
  unfold attach_city. intros H Hc [d Hd]. rewrite Hc, Hd in H.
  destruct (getFlagEmoji (country d)); [|done].
  cbn [cbind] in H. injection H as <-. by eexists.
Qed.

Lemma all_of_Forall2 {A B} (g : A -> completion B) l out :
  all_of g l = Normal out -> Forall2 (fun x y => x ∈ l /\ g x = Normal y) l out.
Proof.
  revert out. induction l as [|x l IH]; intros out; cbn [all_of].
  { intros [= <-]. constructor. }
  destruct (g x) as [y|e] eqn:Hx; [|done].
  destruct (all_of g l) as [ys|e]; [|done].
  intros [= <-]. constructor.
  - split; [by left|done].
  - eapply Forall2_impl; [by apply IH|].
    intros a b [Ha Hb]. split; [by right|done].
Qed.

Lemma collect_fold fs acc :
  NoDup acc ->
  let out := fold_left (fun acc f => match flight_code f with
                                     | Some code => set_add code acc
                                     | None => acc
                                     end) fs acc in
  NoDup out
  /\ forall c, c ∈ out <-> c ∈ acc \/ exists f, f ∈ fs /\ flight_code f = Some c.
Proof.
  revert acc. induction fs as [|f fs IH]; intros acc Hnd; cbn [fold_left].
  { split; [done|]. intros c. split; [by left|].
    intros [?|(f & Hf & _)]; [done|by apply elem_of_nil in Hf]. }
  set (acc' := match flight_code f with Some code => set_add code acc | None => acc end).
  assert (NoDup acc' /\ forall c, c ∈ acc' <-> c ∈ acc \/ flight_code f = Some c)
    as [Hnd' Hacc'].
  { subst acc'. destruct (flight_code f) as [code|].
    - unfold set_add. case_bool_decide as Hin.
      + split; [done|]. intros c. split; [by left|]. intros [?|[= <-]]; done.
      + split.
        * apply NoDup_app. repeat split; [done| |apply NoDup_singleton].
          intros x Hx ->%list_elem_of_singleton. done.
        * intros c. rewrite elem_of_app, list_elem_of_singleton.
          split; intros [?|?]; auto; [right; by f_equal|by simplify_eq; right].
    - split; [done|]. intros c. split; [by left|]. intros [?|?]; done. }
  destruct (IH acc' Hnd') as [Hout Hiff]. split; [done|].
  intros c. rewrite Hiff, Hacc'. split.
  - intros [[?|Hf]|(g & Hg & Hc)]; [by left| |].
    + right. exists f. split; [by left|done].
    + right. exists g. split; [by right|done].
  - intros [?|(g & Hg & Hc)]; [by left; left|].
    apply elem_of_cons in Hg as [->|Hg]; [by left; right|].
    right. by exists g.
Qed.

(** X19. [processFlightData] returns the flights in their order with
    date, time and destination untouched; a flight is either returned
    as it came or carries the cached metadata of the code in its
    destination.  The rewrite of the destination never takes place,
    as a destination that names a code contains a bracket. *)
Theorem processFlightData_annotates (fs out : list Flight) (s s' : State) :
  processFlightData w fs s = (Normal out, s') ->
  Forall2 (annotated (airportCache s')) fs out.
Proof.
  unfold processFlightData, get_state, mbind, M_bind, mret, M_ret.
  destruct (batchFetchAirportData w (collect_codes fs) s) as [[] s1].
  intros [= Hall <-].
  eapply Forall2_impl; [by apply all_of_Forall2|].
  intros f f' [_ Hf]. by apply attach_city_annotated.
Qed.

(** X20. The codes collected from the flights are distinct, and they
    are exactly the codes the destinations name, each of three capital
    letters. *)
Theorem collect_codes_spec (fs : list Flight) :
  NoDup (collect_codes fs)
  /\ forall c, c ∈ collect_codes fs <->
               iata_shaped c /\ exists f, f ∈ fs /\ flight_code f = Some c.
Proof.
  destruct (collect_fold fs [] (NoDup_nil_2)) as [Hnd Hiff].
  split; [exact Hnd|]. intros c. unfold collect_codes. rewrite Hiff. split.
  - intros [Hc|(f & Hf & Hc)]; [by apply elem_of_nil in Hc|].
    split; [|by exists f].
    unfold flight_code in Hc. destruct (truthy (destination f)); [|done].
    by apply match_iata_shape in Hc as [? _].
  - intros [_ ?]. by right.
Qed.

(** X21. With the lookup API answering and the budget covering every
    distinct code, each flight whose destination names a code leaves
    [processFlightData] with a [cityInfo]. *)
Theorem processFlightData_resolves (fs out : list Flight) (s s' : State) :
  (forall t c, exists a b n, aviationstack w t c = ApiAirport a b n) ->
  apiCallsCount s + Z.of_nat (length (collect_codes fs)) <= MAX_API_CALLS ->
  processFlightData w fs s = (Normal out, s') ->
  Forall2 (fun f f' => is_Some (flight_code f) -> is_Some (cityInfo f')) fs out.
Proof.
  intros Hapi Hb.
  unfold processFlightData, get_state, mbind, M_bind, mret, M_ret.
  pose proof (batch_fetch_all w (collect_codes fs) s Hapi Hb) as Hcached.
  destruct (batchFetchAirportData w (collect_codes fs) s) as [[] s1].
  intros [= Hall <-]. simpl in Hcached.
  eapply Forall2_impl; [by apply all_of_Forall2|].
  intros f f' [Hin Hf] [code Hcode].
  apply (attach_city_cached _ _ _ code Hf Hcode), Hcached.
  destruct (collect_fold fs [] (NoDup_nil_2)) as [_ Hiff].
  apply Hiff. right. by exists f.
Qed.

End ProcessFacts.

Lemma processFlightData_annotates_witness :
  exists out s',
    Arrivals.processFlightData Samples.world
      [Samples.flight_at "2024-03-20" "11:50:00"] Samples.nearly_exhausted
    = (Normal out, s')
    /\ Forall2 (Text.annotated (Arrivals.airportCache s'))
               [Samples.flight_at "2024-03-20" "11:50:00"] out.
Proof.
  pose proof (processFlightData_annotates Samples.world
                [Samples.flight_at "2024-03-20" "11:50:00"]) as H.
  destruct (Arrivals.processFlightData Samples.world
              [Samples.flight_at "2024-03-20" "11:50:00"] Samples.nearly_exhausted)
    as [[out|e] s'] eqn:Hrun.
  - exists out, s'. split; [reflexivity|exact (H out _ s' Hrun)].
  - vm_compute in Hrun. discriminate.
Defined.

Lemma processFlightData_resolves_witness :
  exists out s',
    Arrivals.processFlightData Samples.world
      [Samples.flight_at "2024-03-20" "11:50:00"] Samples.nearly_exhausted
    = (Normal out, s')
    /\ Forall2 (fun f f' => is_Some (Arrivals.flight_code f)
                            -> is_Some (Arrivals.cityInfo f'))
               [Samples.flight_at "2024-03-20" "11:50:00"] out.
Proof.
  pose proof (processFlightData_resolves Samples.world
                [Samples.flight_at "2024-03-20" "11:50:00"]) as H.
  destruct (Arrivals.processFlightData Samples.world
              [Samples.flight_at "2024-03-20" "11:50:00"] Samples.nearly_exhausted)
    as [[out|e] s'] eqn:Hrun.
  - exists out, s'. split; [reflexivity|].
    apply (H out Samples.nearly_exhausted s'); [|by vm_compute|exact Hrun].
    intros t c. simpl. eauto.
  - vm_compute in Hrun. discriminate.
Defined.

(** ** The Schiphol handler and its flight cache *)

Section HandlerMore.

Import Arrivals.
Variable w : World.

Ltac run_h :=
  unfold fetchAirportData, fetchOpenFlightsData, cache_empty_or_expired,
    cached_fresh, cache_get, Date_now, effect, get_state, set_airportCache,
    set_lastCacheUpdate, set_apiCallsCount, mbind, M_bind, mret, M_ret;
  simpl.

Lemma fetchPage_cache url params s :
  flightDataCache (snd (fetchPage w url params s)) = flightDataCache s.
Proof.
  unfold fetchPage, effect, mbind, M_bind, mret, M_ret. simpl.
  destruct (schiphol w (tick s) url params) as [|st d lk]; [done|].
  by destruct (negb (st =? 200)).
Qed.

Lemma iteration_cache maxPages nlTime l s :
  flightDataCache (snd (iteration w maxPages nlTime l s)) = flightDataCache s.
Proof.
  unfold iteration. destruct (negb _); [done|].
  unfold mbind, M_bind, mret, M_ret.
  pose proof (fetchPage_cache (currentUrl l)
                (if pageCount l =? 0 then currentParams l else None) s) as Hp.
  destruct (fetchPage w _ _ s) as [page s1]. simpl in Hp.
  destruct (length (flights page) =? 0)%nat; [done|].
  destruct (filter_future w (flights page) nlTime) as [ff|e]; [|done].
  cbv zeta.
  destruct ((length ff =? 0)%nat && _); [done|].
  destruct (negb (hasMore page)); [done|].
  by destruct (maxPages - 1 <=? pageCount l).
Qed.

Lemma paginate_cache fuel maxPages nlTime l s :
  flightDataCache (snd (paginate w fuel maxPages nlTime l s)) = flightDataCache s.
Proof.
  revert l s. induction fuel as [|n IH]; intros l s; [done|].
  cbn [paginate]. unfold mbind, M_bind, mret, M_ret.
  pose proof (iteration_cache maxPages nlTime l s) as Hi.
  destruct (iteration w maxPages nlTime l s) as [[l'|l'|e] s1]; simpl in Hi; try done.
  by rewrite IH.
Qed.

Lemma cache_lookup_cache key s :
  flightDataCache (snd (cache_lookup w key s)) = flightDataCache s.
Proof.
  unfold cache_lookup, isFlightCacheValid, Date_now, effect, get_state,
    mbind, M_bind, mret, M_ret.
  destruct (map_get key (flightDataCache s)) as [e|]; [|done].
  by destruct (timestamp e =? 0).
Qed.

Lemma fetchOpenFlightsData_cache s :
  flightDataCache (snd (fetchOpenFlightsData w s)) = flightDataCache s.
Proof. run_h. repeat case_match; simplify_eq/=; done. Qed.

Lemma fetchAirportData_cache code s :
  flightDataCache (snd (fetchAirportData w code s)) = flightDataCache s.
Proof. run_h. repeat (case_match; simplify_eq/=); done. Qed.

Lemma batchFetchAirportData_cache codes s :
  flightDataCache (snd (batchFetchAirportData w codes s)) = flightDataCache s.
Proof.
  unfold batchFetchAirportData, get_state, mbind, M_bind.
  destruct (length _ =? 0)%nat; [done|].
  destruct (MAX_API_CALLS <? _).
  - apply fetchOpenFlightsData_cache.
  - apply (for_each_invariant (fun s' => flightDataCache s' = flightDataCache s)); [|done].
    intros c s1 Hs1. pose proof (fetchAirportData_cache c s1) as Hc.
    unfold mbind, M_bind. destruct (fetchAirportData w c s1). simpl in *. congruence.
Qed.

Lemma processFlightData_cache fs s :
  flightDataCache (snd (processFlightData w fs s)) = flightDataCache s.
Proof.
  unfold processFlightData, get_state, mbind, M_bind, mret, M_ret.
  pose proof (batchFetchAirportData_cache (collect_codes fs) s) as H.
  by destruct (batchFetchAirportData w (collect_codes fs) s) as [[] s1].
Qed.

(** X27. A response with status 500 is never stored: the flight cache
    after the call is the flight cache before it. *)
Theorem handler_failure_not_cached (env : Env) (queryParams : list (string * string))
        (s : State) (r : HttpResponse) :
  fst (handler w env queryParams s) = Some r ->
  statusCode r = 500 ->
  flightDataCache (snd (handler w env queryParams s)) = flightDataCache s.
Proof.
  unfold handler.
  destruct (negb (truthy (SCHIPHOL_APP_ID env)) || negb (truthy (SCHIPHOL_APP_KEY env)));
    [done|].
  unfold mbind, M_bind, mret, M_ret.
  assert (flightDataCache (snd (effect (local_time w) s)) = flightDataCache s) as H1
    by reflexivity.
  destruct (effect (local_time w) s) as [nl s1]. simpl in H1.
  match goal with |- context [cache_lookup w ?k s1] =>
    pose proof (cache_lookup_cache k s1) as H2;
    destruct (cache_lookup w k s1) as [[c|] s2]
  end; simpl in H2.
  { destruct (Date_now w s2) as [n1 s3]. destruct (Date_now w s3) as [n2 s4].
    simpl. by intros [= <-]. }
  match goal with |- context [paginate w ?f ?m ?n ?l s2] =>
    pose proof (paginate_cache f m n l s2) as H3;
    destruct (paginate w f m n l s2) as [[[l'|e]|] s3]
  end; simpl in H3; [| |done].
  - match goal with |- context [respond w nl ?tw ?p ?k l' s3] =>
      pose proof (respond_status w nl tw p k l' s3) as Hst;
      unfold respond, mbind, M_bind, mret, M_ret in *;
      pose proof (processFlightData_cache (allFlights l') s3) as H4;
      destruct (processFlightData w (allFlights l') s3) as [[fs|e] s4]
    end; simpl in H4.
    + destruct (cache_store w _ _ s4) as [[] s5]. simpl in *.
      intros [= <-] H500. by rewrite (Hst _ eq_refl) in H500.
    + simpl. intros _ _. congruence.
  - simpl. intros _ _. congruence.
Qed.

Lemma iteration_outage maxPages nlTime l s :
  (forall t url params,
      match schiphol w t url params with
      | NetworkError => True
      | HttpReplied status _ _ => status <> 200
      end) ->
  fst (iteration w maxPages nlTime l s) = Exit l.
Proof.
  intros Hdown. unfold iteration. destruct (negb _); [done|].
  unfold fetchPage, effect, mbind, M_bind, mret, M_ret. simpl.
  specialize (Hdown (tick s) (currentUrl l)
                (if pageCount l =? 0 then currentParams l else None)).
  destruct (schiphol w _ _ _) as [|st d lk]; [done|].
  apply Z.eqb_neq in Hdown. by rewrite Hdown.
Qed.

Lemma processFlightData_nil s : processFlightData w [] s = (Normal [], s).
Proof. reflexivity. Qed.

(** X28. With the flights API unreachable, or answering with a status
    other than 200, a call that misses the cache still answers 200: an
    empty [flights] array, one page reported as retrieved, and
    [hasMorePages] set. *)
Theorem handler_outage (env : Env) (queryParams : list (string * string)) (s : State) :
  truthy (SCHIPHOL_APP_ID env) = true -> truthy (SCHIPHOL_APP_KEY env) = true ->
  flightDataCache s = [] ->
  (forall t url params,
      match schiphol w t url params with
      | NetworkError => True
      | HttpReplied status _ _ => status <> 200
      end) ->
  exists r,
    fst (handler w env queryParams s)
    = Some {| statusCode := 200; headers := ok_headers; body := BodyOf r |}
    /\ r_flights r = []
    /\ totalFlights (meta r) = 0
    /\ pagesRetrieved (meta r) = 1
    /\ hasMorePages (meta r) = true
    /\ cached (meta r) = false.
Proof.
  intros Hid Hkey Hcold Hdown. unfold handler. rewrite Hid, Hkey. cbn [negb orb].
  unfold mbind, M_bind, mret, M_ret.
  assert (flightDataCache (snd (effect (local_time w) s)) = []) as H1 by done.
  destruct (effect (local_time w) s) as [nl s1]. simpl in H1.
  unfold cache_lookup at 1, get_state, mbind, M_bind, mret, M_ret.
  rewrite H1. cbn [map_get get_prop isFlightCacheValid]. unfold mret, M_ret.
  cbn [paginate]. unfold mbind, M_bind, mret, M_ret.
  match goal with |- context [iteration w ?m ?n ?l s1] =>
    pose proof (iteration_outage m n l s1 Hdown) as Hit;
    destruct (iteration w m n l s1) as [st s2]
  end.
  simpl in Hit. subst st. cbv beta iota.
  unfold respond, mbind, M_bind, mret, M_ret. cbn [allFlights].
  rewrite processFlightData_nil.
  match goal with |- context [cache_store w ?k ?resp s2] =>
    destruct (cache_store w k resp s2) as [[] s3]
  end.
  eexists. split; [reflexivity|]. by cbn.
Qed.

(** X29. A valid cache entry is served without a request: four
    readings of the clock, the stored payload with the two ages, and
    no change to the module state. *)
Theorem handler_cache_hit (env : Env) (queryParams : list (string * string))
        (s : State) (e : CacheEntry) :
  truthy (SCHIPHOL_APP_ID env) = true -> truthy (SCHIPHOL_APP_KEY env) = true ->
  map_get (getFlightCacheKey (lt_date (local_time w (tick s)))
             (get_prop "timeWindow" queryParams)
             (delete_prop "useDateTimeRange"
                (delete_prop "maxPages" (delete_prop "timeWindow" queryParams))))
          (flightDataCache s) = Some e ->
  timestamp e <> 0 ->
  clock w (S (tick s)) - timestamp e < FLIGHT_CACHE_DURATION ->
  handler w env queryParams s
  = (Some {| statusCode := 200; headers := ok_headers;
             body := BodyOfCached (data e)
                       (round_seconds (clock w (S (S (tick s))) - timestamp e))
                       (round_seconds (timestamp e + FLIGHT_CACHE_DURATION
                                       - clock w (S (S (S (tick s)))))) |},
     {| airportCache := airportCache s; lastCacheUpdate := lastCacheUpdate s;
        apiCallsCount := apiCallsCount s; flightDataCache := flightDataCache s;
        tick := S (S (S (S (tick s)))) |}).
Proof.
  intros Hid Hkey He Hts Hfresh. unfold handler. rewrite Hid, Hkey. cbn [negb orb].
  unfold cache_lookup, isFlightCacheValid, Date_now, effect, get_state,
    mbind, M_bind, mret, M_ret.
  cbn [flightDataCache tick]. rewrite He.
  assert ((timestamp e =? 0) = false) as -> by (by apply Z.eqb_neq).
  cbn [tick].
  assert ((clock w (S (tick s)) - timestamp e <? FLIGHT_CACHE_DURATION) = true) as ->
    by (apply Z.ltb_lt; lia).
  reflexivity.
Qed.

End HandlerMore.

Lemma handler_failure_not_cached_witness :
  Arrivals.statusCode
    <$> fst (Arrivals.handler Samples.null_entry_world Samples.credentials []
               Samples.cold_exhausted) = Some 500
  /\ Arrivals.flightDataCache
       (snd (Arrivals.handler Samples.null_entry_world Samples.credentials []
               Samples.cold_exhausted))
     = Arrivals.flightDataCache Samples.cold_exhausted.
Proof.
  pose proof (handler_failure_not_cached Samples.null_entry_world Samples.credentials []
                Samples.cold_exhausted) as H.
  destruct (fst (Arrivals.handler Samples.null_entry_world Samples.credentials []
                   Samples.cold_exhausted)) as [r|] eqn:Hr;
    [|vm_compute in Hr; discriminate].
  assert (Arrivals.statusCode r = 500) as H500.
  { vm_compute in Hr. injection Hr as <-. reflexivity. }
  split; [simpl; by rewrite H500|].
  first [exact (H r eq_refl H500)|exact (H r Hr H500)].
Defined.

Lemma handler_outage_witness :
  exists r,
    fst (Arrivals.handler Samples.world Samples.credentials [] Samples.cold_exhausted)
    = Some {| Arrivals.statusCode := 200; Arrivals.headers := Arrivals.ok_headers;
              Arrivals.body := Arrivals.BodyOf r |}
    /\ Arrivals.r_flights r = []
    /\ Arrivals.totalFlights (Arrivals.meta r) = 0
    /\ Arrivals.pagesRetrieved (Arrivals.meta r) = 1
    /\ Arrivals.hasMorePages (Arrivals.meta r) = true
    /\ Arrivals.cached (Arrivals.meta r) = false.
Proof.
  apply (handler_outage Samples.world Samples.credentials [] Samples.cold_exhausted).
  - reflexivity.
  - reflexivity.
  - reflexivity.
  - intros t url params. exact I.
Defined.

Lemma handler_cache_hit_witness :
  let e := {| Arrivals.data := Samples.sample_response [];
              Arrivals.timestamp := Samples.noon - 60000 |} in
  let s := {| Arrivals.airportCache := ∅; Arrivals.lastCacheUpdate := None;
              Arrivals.apiCallsCount := 0;
              Arrivals.flightDataCache := [("2024-03-20_all", e)];
              Arrivals.tick := 0 |} in
  fst (Arrivals.handler Samples.endless_world Samples.credentials [] s)
  = Some {| Arrivals.statusCode := 200; Arrivals.headers := Arrivals.ok_headers;
            Arrivals.body := Arrivals.BodyOfCached (Samples.sample_response []) 60 840 |}.
Proof.
  intros e s.
  pose proof (handler_cache_hit Samples.endless_world Samples.credentials [] s e
                eq_refl eq_refl eq_refl ltac:(by vm_compute) ltac:(by vm_compute)) as H.
  apply (f_equal fst) in H. exact H.
Defined.

(** ** The clean-up loop of the flight cache *)

Section SweepFacts.

Import Arrivals.
Variable w : World.

(** X30. The clean-up loop only removes: what it leaves is a sublist
    of the entries in their order, and every entry left has a non-zero
    timestamp and was younger than [FLIGHT_CACHE_DURATION] at a
    reading of the clock taken during the loop. *)
Theorem sweep_only_removes (entries : list (string * CacheEntry)) (s : State) :
  fst (sweep w entries s) `sublist_of` entries
  /\ forall k e,
       (k, e) ∈ fst (sweep w entries s) ->
       timestamp e <> 0
       /\ exists t, (tick s <= t < tick (snd (sweep w entries s)))%nat
                    /\ clock w t - timestamp e < FLIGHT_CACHE_DURATION.
Proof.
  revert s. induction entries as [|[k0 e0] r IH]; intros s.
  { split; [constructor|]. intros k e H. by apply elem_of_nil in H. }
  rewrite sweep_cons, isFlightCacheValid_reads.
  destruct (Z.eqb_spec (timestamp e0) 0) as [Hz|Hnz].
  - destruct (IH s) as [Hsub Hin]. destruct (sweep w r s) as [kept s2]. simpl in *.
    split; [by constructor|exact Hin].
  - pose proof (sweep_tick w r (snd (Date_now w s))) as Htick.
    destruct (IH (snd (Date_now w s))) as [Hsub Hin].
    destruct (sweep w r (snd (Date_now w s))) as [kept s2]. simpl in *.
    destruct (Z.ltb_spec (clock w (tick s) - timestamp e0) FLIGHT_CACHE_DURATION)
      as [Hlt|Hge].
    + split; [by constructor|].
      intros k e [[= -> ->]|Hk]%elem_of_cons.
      * split; [done|]. exists (tick s). split; [lia|done].
      * destruct (Hin k e Hk) as (Hts & t & Ht & Hfresh).
        split; [done|]. exists t. split; [lia|done].
    + split; [by constructor|].
      intros k e Hk. destruct (Hin k e Hk) as (Hts & t & Ht & Hfresh).
      split; [done|]. exists t. split; [lia|done].
Qed.

End SweepFacts.
